(** * A marketplace web application: the persistent store, the request
    handlers of [app.py] and the form validators of [forms.py].

    The handlers are embedded as pure functions from the world a request
    finds (database rows and the files of the upload folder) to the response
    and the world the request leaves.  What a request takes from outside the
    program (the clock of the database, the random name [uuid4] draws, the
    salted hash of a password) is passed in an [Env]. *)

From Stdlib Require Import QArith Ascii String.
From stdpp Require Import base option list strings gmap sorting.
From Stdlib Require Import Sorted Permutation.

Local Open Scope string_scope.
Local Open Scope nat_scope.

(** ** Python values *)

(** A Python [float]: a finite double is the rational it denotes. *)
Inductive pyfloat :=
| Finite (q : Q)
| PosInf
| NegInf
| NaN.

(** [bool(x)] of a float: every value but zero is true. *)
Definition float_truthy (x : pyfloat) : bool :=
  match x with
  | Finite q => negb (Qeq_bool q 0)
  | _ => true
  end.

(** [x < y] and [x >= y] on floats; every comparison with NaN is false. *)
Definition float_lt (x y : pyfloat) : bool :=
  match x, y with
  | NaN, _ | _, NaN => false
  | _, NegInf => false
  | NegInf, _ => true
  | PosInf, _ => false
  | Finite _, PosInf => true
  | Finite a, Finite b => negb (Qle_bool b a)
  end.

Definition float_ge (x y : pyfloat) : bool :=
  match x, y with
  | NaN, _ | _, NaN => false
  | _, _ => negb (float_lt x y)
  end.

(** [x <= y]. *)
Definition float_le (x y : pyfloat) : bool := float_ge y x.

Definition float_isnan (x : pyfloat) : bool :=
  match x with NaN => true | _ => false end.

Definition float_zero : pyfloat := Finite 0.

(** ** Python strings, as their UTF-8 bytes *)

Definition code (c : ascii) : nat := nat_of_ascii c.

Definition between (lo hi n : nat) : bool := (lo <=? n) && (n <=? hi).

(** Whether a string consists of white space only, that is, whether
    [s.strip()] is empty.  The white space of [str.strip] is U+0009-000D,
    U+001C-0020, U+0085, U+00A0, U+1680, U+2000-200A, U+2028, U+2029,
    U+202F, U+205F and U+3000; the function reads their encodings. *)
Fixpoint all_space (l : list ascii) : bool :=
  match l with
  | [] => true
  | a :: r1 =>
    if between 9 13 (code a) || between 28 32 (code a) then all_space r1
    else
      match r1 with
      | [] => false
      | b :: r2 =>
        if (code a =? 194) && ((code b =? 133) || (code b =? 160))
        then all_space r2
        else
          match r2 with
          | [] => false
          | c :: r3 =>
            if ((code a =? 225) && (code b =? 154) && (code c =? 128))
               || ((code a =? 226) && (code b =? 128)
                   && (between 128 138 (code c) || between 168 169 (code c)
                       || (code c =? 175)))
               || ((code a =? 226) && (code b =? 129) && (code c =? 159))
               || ((code a =? 227) && (code b =? 128) && (code c =? 128))
            then all_space r3
            else false
          end
      end
  end.

Definition strip_is_empty (s : string) : bool :=
  all_space (list_ascii_of_string s).

(** [s.lower()] on the ASCII letters, which is all [FileAllowed] looks at. *)
Definition lower_ascii (c : ascii) : ascii :=
  if between 65 90 (code c) then ascii_of_nat (code c + 32) else c.

Fixpoint lower (s : string) : string :=
  match s with
  | EmptyString => EmptyString
  | String c r => String (lower_ascii c) (lower r)
  end.

Definition endswith (s suf : string) : bool :=
  (String.length suf <=? String.length s)
  && String.eqb
       (substring (String.length s - String.length suf) (String.length suf) s)
       suf.

(** [s.rfind(c)]: the last index of [c], or -1. *)
Fixpoint rfind_from (c : ascii) (s : string) (i : Z) (found : Z) : Z :=
  match s with
  | EmptyString => found
  | String d r => rfind_from c r (i + 1) (if Ascii.eqb d c then i else found)
  end.

Definition rfind (c : ascii) (s : string) : Z := rfind_from c s 0 (-1).

(** The second component of [os.path.splitext(p)]: the text from the last
    dot of the last path component, unless only dots precede it there. *)
Definition splitext_ext (p : string) : string :=
  let sepIndex := rfind "/" p in
  let dotIndex := rfind "." p in
  if (sepIndex <? dotIndex)%Z then
    let filenameIndex := Z.to_nat (sepIndex + 1) in
    let stem := substring filenameIndex (Z.to_nat dotIndex - filenameIndex) p in
    if existsb (fun d => negb (Ascii.eqb d ".")) (list_ascii_of_string stem)
    then substring (Z.to_nat dotIndex) (String.length p - Z.to_nat dotIndex) p
    else ""
  else "".

(** ** The rows of the four tables *)

Module User.
Record t := mk {
  id : nat;
  username : string;
  email : string;
  password_hash : string;
  role : string
}.
End User.

Module Product.
Record t := mk {
  id : nat;
  name : string;
  description : string;
  specifications : option string;
  condition : string;
  price : pyfloat;
  image_filename : string;
  seller_id : nat
}.
End Product.

Module ShippingAddress.
Record t := mk {
  id : nat;
  user_id : nat;
  recipient_name : string;
  phone_number : string;
  address_line1 : string;
  address_line2 : option string;
  city : string;
  state : string;
  zip_code : string;
  country : string
}.
End ShippingAddress.

Module Order.
Record t := mk {
  id : nat;
  product_id : nat;
  buyer_id : nat;
  order_date : nat;
  status : string;
  shipping_method : string;
  shipping_address_id : nat;
  total_price : pyfloat
}.
End Order.

(** The database: each table is the list of its rows in insertion order. *)
Record Db := mkDb {
  users : list User.t;
  products : list Product.t;
  shipping_addresses : list ShippingAddress.t;
  orders : list Order.t
}.

(** The world a request runs in: the database and the names of the files
    in the upload folder. *)
Record World := mkWorld {
  db : Db;
  uploads : gset string
}.

(** What one request draws from outside the program. *)
Record Env := mkEnv {
  now : nat;               (* db.func.now() *)
  uuid_hex : string;       (* uuid.uuid4().hex *)
  salted_hash : string     (* generate_password_hash(password) *)
}.

Definition empty_db : Db := mkDb [] [] [] [].

(** ** Queries *)

(** [Model.query.get(i)]: the row whose primary key is [i].  The ids of
    rows are integers of the database; an id of a request that is beyond
    them names no row, and [missing_status] says what the handlers answer
    to it. *)
Definition get {A} (key : A → nat) (i : nat) (rows : list A) : option A :=
  find (fun r => key r =? i) rows.

Definition get_user (d : Db) (i : nat) := get User.id i (users d).
Definition get_product (d : Db) (i : nat) := get Product.id i (products d).
Definition get_shipping_address (d : Db) (i : nat) :=
  get ShippingAddress.id i (shipping_addresses d).

(** The largest integer the database holds, 2^63 - 1. *)
Definition max_int : Z := 9223372036854775807.

(** The status [query.get_or_404(i)] aborts with when it finds no row: 404;
    but an id beyond the integers of the database, which is no row's id,
    is refused by the driver with an OverflowError before the query runs,
    and the answer is 500. *)
Definition missing_status (i : nat) : nat :=
  if (Z.of_nat i <=? max_int)%Z then 404 else 500.

(** The key an insert is given: one more than the largest key in the table
    (the rowid rule of SQLite, the database of the default configuration). *)
Definition next_id {A} (key : A → nat) (rows : list A) : nat :=
  S (foldr Nat.max 0 (map key rows)).

(** [product.seller], the relationship over [seller_id]. *)
Definition seller (d : Db) (p : Product.t) : option User.t :=
  get_user d (Product.seller_id p).

(** [current_user]: the user the session names, loaded by [load_user];
    [None] is the anonymous user.  A session is written by [login_user]
    with the id of a row. *)
Definition current_user (session : option nat) (d : Db) : option User.t :=
  match session with
  | Some user_id => get_user d user_id
  | None => None
  end.

(** [order_by(Order.order_date.desc())], as a stable insertion sort. *)
Fixpoint insert_desc (o : Order.t) (l : list Order.t) : list Order.t :=
  match l with
  | [] => [o]
  | x :: r =>
    if Order.order_date x <=? Order.order_date o then o :: x :: r
    else x :: insert_desc o r
  end.

Definition order_by_date_desc (l : list Order.t) : list Order.t :=
  foldr insert_desc [] l.

(** The order of [my_orders]: [a] may stand before [b] when it is not
    older. *)
Definition not_older (a b : Order.t) : Prop :=
  Order.order_date b ≤ Order.order_date a.

(** ** Requests and responses *)

Inductive http_method := GET | HEAD | POST.

Record FileStorage := mkFile {
  filename : string;
  stream : string
}.

(** The data of the three forms after WTForms processed the submission:
    a field that was not sent, or that did not parse, holds [None]. *)
Record ProductForm := mkProductForm {
  pf_csrf : bool;
  pf_name : option string;
  pf_description : option string;
  pf_specifications : option string;
  pf_condition : option string;
  pf_price : option pyfloat;
  pf_image : option FileStorage
}.

Record ShippingAddressForm := mkShippingAddressForm {
  sf_csrf : bool;
  sf_recipient_name : option string;
  sf_phone_number : option string;
  sf_address_line1 : option string;
  sf_address_line2 : option string;
  sf_city : option string;
  sf_state : option string;
  sf_zip_code : option string;
  sf_country : option string
}.

Record OrderForm := mkOrderForm {
  of_csrf : bool;
  of_shipping_method : option string
}.

(** [request.form] of the registration page. *)
Record RegisterForm := mkRegisterForm {
  rf_username : option string;
  rf_email : option string;
  rf_password : option string;
  rf_role : option string
}.

Inductive endpoint :=
| ep_home
| ep_login
| ep_register
| ep_shipping_address (product_id : nat)
| ep_confirm_order (product_id shipping_address_id : nat)
| ep_my_orders.

Inductive page :=
| products_html (l : list Product.t)
| create_product_html (editing : option Product.t)
| product_detail_html (p : Product.t)
| register_html
| seller_products_html (l : list Product.t)
| shipping_address_html (p : Product.t) (existing : list ShippingAddress.t)
| confirm_order_html (p : Product.t) (a : ShippingAddress.t)
| my_orders_html (l : list Order.t).

Inductive body :=
| redirect (target : endpoint)
| render_template (pg : page)
| abort (status_code : nat).

(** A response: the message flashed, if any, with its category, and the body. *)
Record Response := mkResponse {
  flashed : option (string * string);
  resp_body : body
}.

Definition flash_redirect (msg cat : string) (target : endpoint) : Response :=
  mkResponse (Some (msg, cat)) (redirect target).

Definition plain (b : body) : Response := mkResponse None b.

(** What [@login_required] answers to the anonymous user. *)
Definition unauthorized : Response :=
  flash_redirect "Please log in to access this page." "message" ep_login.

(** ** The validators of [forms.py] *)

(** [DataRequired] on a text field: the data is true and, stripped, not
    empty. *)
Definition data_required (data : option string) : bool :=
  match data with
  | Some s => negb (String.eqb s "") && negb (strip_is_empty s)
  | None => false
  end.

(** [DataRequired] on a [FloatField]: the data is true. *)
Definition data_required_float (data : option pyfloat) : bool :=
  match data with
  | Some x => float_truthy x
  | None => false
  end.

(** The double written [0.01]: 5764607523034235 / 2^59. *)
Definition min_price : pyfloat :=
  Finite (5764607523034235 # 576460752303423488).

(** [NumberRange(min=...)]: the data is a number, not NaN, and not below
    the minimum. *)
Definition number_range_min (lo : pyfloat) (data : option pyfloat) : bool :=
  match data with
  | Some x => negb (float_isnan x) && float_ge x lo
  | None => false
  end.

(** A [SelectField] accepts one of its choices. *)
Definition valid_choice (choices : list string) (data : option string)
  : bool :=
  match data with
  | Some s => existsb (String.eqb s) choices
  | None => false
  end.

(** A [FileStorage] is true when it has a file name. *)
Definition has_file (data : option FileStorage) : bool :=
  match data with
  | Some f => negb (String.eqb (filename f) "")
  | None => false
  end.

(** [FileAllowed(upload_set)]: passes without a file; with one, its name in
    lower case ends in a dot and one of the extensions. *)
Definition file_allowed (upload_set : list string) (data : option FileStorage)
  : bool :=
  match data with
  | Some f =>
    if has_file data
    then existsb (fun x => endswith (lower (filename f)) ("." ++ x)) upload_set
    else true
  | None => true
  end.

Definition condition_choices : list string :=
  ["全新"; "九成新"; "八成新"; "有使用痕跡"; "二手"].

Definition shipping_method_choices : list string :=
  ["郵寄"; "宅配"; "超商取貨"].

Definition ProductForm_validate (form : ProductForm) : bool :=
  pf_csrf form
  && data_required (pf_name form)
  && data_required (pf_description form)
  && valid_choice condition_choices (pf_condition form)
  && data_required (pf_condition form)
  && data_required_float (pf_price form)
  && number_range_min min_price (pf_price form)
  && file_allowed ["jpg"; "png"; "jpeg"] (pf_image form).

Definition ShippingAddressForm_validate (form : ShippingAddressForm)
  : bool :=
  sf_csrf form
  && data_required (sf_recipient_name form)
  && data_required (sf_phone_number form)
  && data_required (sf_address_line1 form)
  && data_required (sf_city form)
  && data_required (sf_state form)
  && data_required (sf_zip_code form)
  && data_required (sf_country form).

Definition OrderForm_validate (form : OrderForm) : bool :=
  of_csrf form
  && valid_choice shipping_method_choices (of_shipping_method form)
  && data_required (of_shipping_method form).

(** [form.validate_on_submit()]: the request submits and the form is valid. *)
Definition is_submitted (meth : http_method) : bool :=
  match meth with POST => true | _ => false end.

Definition validate_on_submit (meth : http_method) (valid : bool) : bool :=
  is_submitted meth && valid.

(** ** Writing to the store *)

Definition with_users (d : Db) (l : list User.t) : Db :=
  mkDb l (products d) (shipping_addresses d) (orders d).
Definition with_products (d : Db) (l : list Product.t) : Db :=
  mkDb (users d) l (shipping_addresses d) (orders d).
Definition with_shipping_addresses (d : Db) (l : list ShippingAddress.t)
  : Db :=
  mkDb (users d) (products d) l (orders d).
Definition with_orders (d : Db) (l : list Order.t) : Db :=
  mkDb (users d) (products d) (shipping_addresses d) l.

(** The UPDATE of a product row and the DELETE of one, by primary key. *)
Definition update_row (p' : Product.t) (rows : list Product.t)
  : list Product.t :=
  map (fun r => if Product.id r =? Product.id p' then p' else r) rows.

Definition delete_row (p : Product.t) (rows : list Product.t)
  : list Product.t :=
  filter (fun r => Product.id r ≠ Product.id p) rows.

Definition default_jpg : string := "default.jpg".

(** [if os.path.exists(path): os.remove(path)] in the upload folder. *)
Definition remove_if_exists (fn : string) (up : gset string) : gset string :=
  if bool_decide (fn ∈ up) then up ∖ {[ fn ]} else up.

(** The removal of a product's picture, which spares the placeholder. *)
Definition remove_picture (p : Product.t) (up : gset string) : gset string :=
  if negb (String.eqb (Product.image_filename p) default_jpg)
  then remove_if_exists (Product.image_filename p) up
  else up.

(** [save_picture]: the file is stored under a random name that keeps the
    extension of the name it was sent with. *)
Definition save_picture (env : Env) (image_file : FileStorage)
    (up : gset string) : string * gset string :=
  let random_hex := uuid_hex env in
  let f_ext := splitext_ext (filename image_file) in
  let picture_fn := random_hex ++ f_ext in
  (picture_fn, {[ picture_fn ]} ∪ up).

(** [product.seller != current_user]: users compare by id, and no seller
    differs from every user. *)
Definition seller_is_not (d : Db) (p : Product.t) (cu : User.t) : bool :=
  match seller d p with
  | Some s => negb (User.id s =? User.id cu)
  | None => true
  end.

(** [current_user.role != 'buyer' or current_user.id == product.seller.id],
    the test the four purchase handlers start with; [None] when the product
    has no seller row and [product.seller.id] raises. *)
Definition may_not_buy (d : Db) (cu : User.t) (p : Product.t) : option bool :=
  if negb (String.eqb (User.role cu) "buyer") then Some true
  else
    match seller d p with
    | Some s => Some (User.id cu =? User.id s)
    | None => None
    end.

Definition no_purchase : Response :=
  flash_redirect "您無權購買此商品" "danger" ep_home.

Definition no_address (product_id : nat) : Response :=
  flash_redirect "無權使用此收件地址" "danger"
    (ep_shipping_address product_id).

(** ** The handlers of [app.py] *)

Definition home (w : World) : Response * World :=
  (plain (render_template (products_html (products (db w)))), w).

Definition create_product (env : Env) (session : option nat)
    (meth : http_method) (form : ProductForm) (w : World) : Response * World :=
  match current_user session (db w) with
  | None => (unauthorized, w)
  | Some cu =>
    if negb (String.eqb (User.role cu) "seller")
    then (flash_redirect "只有賣家才能上架商品" "danger" ep_home, w)
    else if validate_on_submit meth (ProductForm_validate form) then
      let '(picture_file, up) :=
        match pf_image form with
        | Some f =>
          if has_file (pf_image form) then save_picture env f (uploads w)
          else (default_jpg, uploads w)
        | None => (default_jpg, uploads w)
        end in
      match pf_name form, pf_description form, pf_condition form,
            pf_price form with
      | Some n, Some de, Some c, Some pr =>
        let product :=
          Product.mk (next_id Product.id (products (db w))) n de
            (pf_specifications form) c pr picture_file (User.id cu) in
        (flash_redirect "商品已成功上架！" "success" ep_home,
         mkWorld (with_products (db w) (products (db w) ++ [product])) up)
      | _, _, _, _ => (plain (abort 500), mkWorld (db w) up)
      end
    else (plain (render_template (create_product_html None)), w)
  end.

Definition product_detail (product_id : nat) (w : World) : Response * World :=
  match get_product (db w) product_id with
  | None => (plain (abort (missing_status product_id)), w)
  | Some product => (plain (render_template (product_detail_html product)), w)
  end.

(** [User.query.filter_by(username=...).first()], and the same by email. *)
Definition first_by_username (d : Db) (username : option string)
  : option User.t :=
  match username with
  | Some un => find (fun u => String.eqb (User.username u) un) (users d)
  | None => None
  end.

Definition first_by_email (d : Db) (email : option string) : option User.t :=
  match email with
  | Some em => find (fun u => String.eqb (User.email u) em) (users d)
  | None => None
  end.

Definition register (env : Env) (session : option nat) (meth : http_method)
    (form : RegisterForm) (w : World) : Response * World :=
  match current_user session (db w) with
  | Some _ => (plain (redirect ep_home), w)
  | None =>
    match meth with
    | POST =>
      let username := rf_username form in
      let email := rf_email form in
      let password := rf_password form in
      let role := default "buyer" (rf_role form) in
      match first_by_username (db w) username with
      | Some _ =>
        (flash_redirect
           "Username already exists. Please choose a different one."
           "danger" ep_register, w)
      | None =>
        match first_by_email (db w) email with
        | Some _ =>
          (flash_redirect
             "Email already registered. Please use a different email."
             "danger" ep_register, w)
        | None =>
          match username, email, password with
          | Some un, Some em, Some _ =>
            let new_user :=
              User.mk (next_id User.id (users (db w))) un em
                (salted_hash env) role in
            (flash_redirect
               "Your account has been created! You are now able to log in."
               "success" ep_login,
             mkWorld (with_users (db w) (users (db w) ++ [new_user]))
               (uploads w))
          | _, _, _ => (plain (abort 500), w)
          end
        end
      end
    | _ => (plain (render_template register_html), w)
    end
  end.

Definition update_product (env : Env) (session : option nat)
    (product_id : nat) (meth : http_method) (form : ProductForm) (w : World)
  : Response * World :=
  match current_user session (db w) with
  | None => (unauthorized, w)
  | Some cu =>
    match get_product (db w) product_id with
    | None => (plain (abort (missing_status product_id)), w)
    | Some product =>
      if seller_is_not (db w) product cu
      then (flash_redirect "您無權編輯此商品" "danger" ep_home, w)
      else if validate_on_submit meth (ProductForm_validate form) then
        let '(image_filename, up) :=
          match pf_image form with
          | Some f =>
            if has_file (pf_image form)
            then save_picture env f (remove_picture product (uploads w))
            else (Product.image_filename product, uploads w)
          | None => (Product.image_filename product, uploads w)
          end in
        match pf_name form, pf_description form, pf_condition form,
              pf_price form with
        | Some n, Some de, Some c, Some pr =>
          let product' :=
            Product.mk (Product.id product) n de (pf_specifications form) c pr
              image_filename (Product.seller_id product) in
          (flash_redirect "您的商品已更新!" "success" ep_home,
           mkWorld
             (with_products (db w) (update_row product' (products (db w))))
             up)
        | _, _, _, _ => (plain (abort 500), mkWorld (db w) up)
        end
      else (plain (render_template (create_product_html (Some product))), w)
    end
  end.

(** Whether [product.orders] is not empty.  The relationship has no delete
    cascade: the session that deletes a product first sets [product_id] of
    its orders to NULL, which the column does not accept, so the commit of
    such a delete raises and nothing is written. *)
Definition has_orders (d : Db) (p : Product.t) : bool :=
  existsb (fun o => Order.product_id o =? Product.id p) (orders d).

Definition delete_product (session : option nat) (product_id : nat)
    (w : World) : Response * World :=
  match current_user session (db w) with
  | None => (unauthorized, w)
  | Some cu =>
    match get_product (db w) product_id with
    | None => (plain (abort (missing_status product_id)), w)
    | Some product =>
      if seller_is_not (db w) product cu
      then (flash_redirect "您無權刪除此商品" "danger" ep_home, w)
      else
        let up := remove_picture product (uploads w) in
        if has_orders (db w) product
        then (plain (abort 500), mkWorld (db w) up)
        else
          (flash_redirect "您的商品已成功刪除！" "success" ep_home,
           mkWorld
             (with_products (db w) (delete_row product (products (db w))))
             up)
    end
  end.

Definition seller_products (session : option nat) (w : World)
  : Response * World :=
  match current_user session (db w) with
  | None => (unauthorized, w)
  | Some cu =>
    if negb (String.eqb (User.role cu) "seller")
    then (flash_redirect "您沒有權限查看此頁面" "danger" ep_home, w)
    else
      (plain (render_template (seller_products_html
         (filter (fun p => Product.seller_id p = User.id cu)
            (products (db w))))), w)
  end.

Definition create_order (session : option nat) (product_id : nat) (w : World)
  : Response * World :=
  match current_user session (db w) with
  | None => (unauthorized, w)
  | Some cu =>
    match get_product (db w) product_id with
    | None => (plain (abort (missing_status product_id)), w)
    | Some product =>
      match may_not_buy (db w) cu product with
      | None => (plain (abort 500), w)
      | Some true => (no_purchase, w)
      | Some false =>
        (plain (redirect (ep_shipping_address (Product.id product))), w)
      end
    end
  end.

Definition shipping_address (session : option nat) (product_id : nat)
    (meth : http_method) (form : ShippingAddressForm) (w : World)
  : Response * World :=
  match current_user session (db w) with
  | None => (unauthorized, w)
  | Some cu =>
    match get_product (db w) product_id with
    | None => (plain (abort (missing_status product_id)), w)
    | Some product =>
      match may_not_buy (db w) cu product with
      | None => (plain (abort 500), w)
      | Some true => (no_purchase, w)
      | Some false =>
        let existing_addresses :=
          filter (fun a => ShippingAddress.user_id a = User.id cu)
            (shipping_addresses (db w)) in
        if validate_on_submit meth (ShippingAddressForm_validate form) then
          match sf_recipient_name form, sf_phone_number form,
                sf_address_line1 form, sf_city form, sf_state form,
                sf_zip_code form, sf_country form with
          | Some rn, Some ph, Some l1, Some ci, Some st, Some zc, Some co =>
            let new_address :=
              ShippingAddress.mk
                (next_id ShippingAddress.id (shipping_addresses (db w)))
                (User.id cu) rn ph l1 (sf_address_line2 form) ci st zc co in
            (flash_redirect "新收件地址已儲存！" "success"
               (ep_confirm_order (Product.id product)
                  (ShippingAddress.id new_address)),
             mkWorld
               (with_shipping_addresses (db w)
                  (shipping_addresses (db w) ++ [new_address]))
               (uploads w))
          | _, _, _, _, _, _, _ => (plain (abort 500), w)
          end
        else
          (plain (render_template
             (shipping_address_html product existing_addresses)), w)
      end
    end
  end.

Definition confirm_order (env : Env) (session : option nat)
    (product_id shipping_address_id : nat) (meth : http_method)
    (form : OrderForm) (w : World) : Response * World :=
  match current_user session (db w) with
  | None => (unauthorized, w)
  | Some cu =>
    match get_product (db w) product_id with
    | None => (plain (abort (missing_status product_id)), w)
    | Some product =>
      match get_shipping_address (db w) shipping_address_id with
      | None =>
        (plain (abort (missing_status shipping_address_id)), w)
      | Some address =>
        match may_not_buy (db w) cu product with
        | None => (plain (abort 500), w)
        | Some true => (no_purchase, w)
        | Some false =>
          if negb (ShippingAddress.user_id address =? User.id cu)
          then (no_address (Product.id product), w)
          else if validate_on_submit meth (OrderForm_validate form) then
            match of_shipping_method form with
            | Some sm =>
              let new_order :=
                Order.mk (next_id Order.id (orders (db w)))
                  (Product.id product) (User.id cu) (now env) "pending" sm
                  (ShippingAddress.id address) (Product.price product) in
              (flash_redirect "訂單已成功建立！" "success" ep_my_orders,
               mkWorld (with_orders (db w) (orders (db w) ++ [new_order]))
                 (uploads w))
            | None => (plain (abort 500), w)
            end
          else
            (plain (render_template (confirm_order_html product address)), w)
        end
      end
    end
  end.

Definition select_shipping_address (session : option nat)
    (product_id shipping_address_id : nat) (w : World) : Response * World :=
  match current_user session (db w) with
  | None => (unauthorized, w)
  | Some cu =>
    match get_product (db w) product_id with
    | None => (plain (abort (missing_status product_id)), w)
    | Some product =>
      match get_shipping_address (db w) shipping_address_id with
      | None =>
        (plain (abort (missing_status shipping_address_id)), w)
      | Some address =>
        match may_not_buy (db w) cu product with
        | None => (plain (abort 500), w)
        | Some true => (no_purchase, w)
        | Some false =>
          if negb (ShippingAddress.user_id address =? User.id cu)
          then (no_address (Product.id product), w)
          else
            (plain (redirect (ep_confirm_order (Product.id product)
                                (ShippingAddress.id address))), w)
        end
      end
    end
  end.

Definition my_orders (session : option nat) (w : World) : Response * World :=
  match current_user session (db w) with
  | None => (unauthorized, w)
  | Some cu =>
    if negb (String.eqb (User.role cu) "buyer")
    then (flash_redirect "您沒有權限查看此頁面" "danger" ep_home, w)
    else
      let orders :=
        order_by_date_desc
          (filter (fun o => Order.buyer_id o = User.id cu) (orders (db w))) in
      (plain (render_template (my_orders_html orders)), w)
  end.

(** ** Runs of the application *)

Inductive Request :=
| req_home
| req_create_product (meth : http_method) (form : ProductForm)
| req_product_detail (product_id : nat)
| req_register (meth : http_method) (form : RegisterForm)
| req_update_product (product_id : nat) (meth : http_method)
    (form : ProductForm)
| req_delete_product (product_id : nat)
| req_seller_products
| req_create_order (product_id : nat)
| req_shipping_address (product_id : nat) (meth : http_method)
    (form : ShippingAddressForm)
| req_confirm_order (product_id shipping_address_id : nat)
    (meth : http_method) (form : OrderForm)
| req_select_shipping_address (product_id shipping_address_id : nat)
| req_my_orders.

(** The routing table.  The session of a request names the user who logged
    in, if any; [login] and [logout] only change the session. *)
Definition handle (env : Env) (session : option nat) (r : Request) (w : World)
  : Response * World :=
  match r with
  | req_home => home w
  | req_create_product meth form => create_product env session meth form w
  | req_product_detail product_id => product_detail product_id w
  | req_register meth form => register env session meth form w
  | req_update_product product_id meth form =>
    update_product env session product_id meth form w
  | req_delete_product product_id => delete_product session product_id w
  | req_seller_products => seller_products session w
  | req_create_order product_id => create_order session product_id w
  | req_shipping_address product_id meth form =>
    shipping_address session product_id meth form w
  | req_confirm_order product_id shipping_address_id meth form =>
    confirm_order env session product_id shipping_address_id meth form w
  | req_select_shipping_address product_id shipping_address_id =>
    select_shipping_address session product_id shipping_address_id w
  | req_my_orders => my_orders session w
  end.

(** The worlds the application can be in: it starts on the empty tables of
    [db.create_all()] with any upload folder, and serves requests. *)
Inductive reachable : World → Prop :=
| reachable_start up : reachable (mkWorld empty_db up)
| reachable_step w env session r :
    reachable w → reachable (handle env session r w).2.

(** ** What a request can do to the database

    [db_step d d'] lists the writes the handlers commit, each with the facts
    its handler has checked before it writes. *)

Definition positive (x : pyfloat) : Prop := float_lt float_zero x = true.

Inductive db_step (d : Db) : Db → Prop :=
| step_read : db_step d d
| step_register u :
    User.id u = next_id User.id (users d) →
    db_step d (with_users d (users d ++ [u]))
| step_create_product cu p :
    get_user d (User.id cu) = Some cu →
    User.role cu = "seller" →
    Product.seller_id p = User.id cu →
    Product.id p = next_id Product.id (products d) →
    positive (Product.price p) →
    db_step d (with_products d (products d ++ [p]))
| step_update_product p p' :
    p ∈ products d →
    Product.id p' = Product.id p →
    Product.seller_id p' = Product.seller_id p →
    positive (Product.price p') →
    db_step d (with_products d (update_row p' (products d)))
| step_delete_product p :
    db_step d (with_products d (delete_row p (products d)))
| step_shipping_address cu a :
    get_user d (User.id cu) = Some cu →
    ShippingAddress.user_id a = User.id cu →
    ShippingAddress.id a =
      next_id ShippingAddress.id (shipping_addresses d) →
    db_step d (with_shipping_addresses d (shipping_addresses d ++ [a]))
| step_confirm_order cu a o :
    get_user d (User.id cu) = Some cu →
    User.role cu = "buyer" →
    get_shipping_address d (Order.shipping_address_id o) = Some a →
    ShippingAddress.user_id a = User.id cu →
    Order.buyer_id o = User.id cu →
    Order.id o = next_id Order.id (orders d) →
    db_step d (with_orders d (orders d ++ [o])).

(** The invariant of the database. *)
Record Inv (d : Db) : Prop := mkInv {
  inv_sellers : ∀ p, p ∈ products d →
    ∃ u, get_user d (Product.seller_id p) = Some u ∧ User.role u = "seller";
  inv_buyers : ∀ o, o ∈ orders d →
    ∃ u, get_user d (Order.buyer_id o) = Some u ∧ User.role u = "buyer";
  inv_addresses : ∀ o, o ∈ orders d →
    ∃ a, get_shipping_address d (Order.shipping_address_id o) = Some a
         ∧ ShippingAddress.user_id a = Order.buyer_id o;
  inv_prices : ∀ p, p ∈ products d → positive (Product.price p);
  inv_order_ids : NoDup (map Order.id (orders d))
}.

(** The responses of the handlers that wrote what they were asked to. *)
Definition product_created : Response :=
  flash_redirect "商品已成功上架！" "success" ep_home.
Definition product_updated : Response :=
  flash_redirect "您的商品已更新!" "success" ep_home.
Definition product_deleted : Response :=
  flash_redirect "您的商品已成功刪除！" "success" ep_home.
Definition order_created : Response :=
  flash_redirect "訂單已成功建立！" "success" ep_my_orders.
Definition username_exists : Response :=
  flash_redirect "Username already exists. Please choose a different one."
    "danger" ep_register.

(** The picture an update leaves the product with, and the upload folder. *)
Definition updated_picture (env : Env) (form : ProductForm)
    (product : Product.t) (up : gset string) : string * gset string :=
  match pf_image form with
  | Some f =>
    if has_file (pf_image form)
    then save_picture env f (remove_picture product up)
    else (Product.image_filename product, up)
  | None => (Product.image_filename product, up)
  end.

(** When [confirm_order] writes, and what. *)
Definition can_confirm (d : Db) (session : option nat)
    (product_id shipping_address_id : nat) (meth : http_method)
    (form : OrderForm) (cu : User.t) (product : Product.t)
    (address : ShippingAddress.t) (sm : string) : Prop :=
  current_user session d = Some cu
  ∧ get_product d product_id = Some product
  ∧ get_shipping_address d shipping_address_id = Some address
  ∧ may_not_buy d cu product = Some false
  ∧ ShippingAddress.user_id address = User.id cu
  ∧ validate_on_submit meth (OrderForm_validate form) = true
  ∧ of_shipping_method form = Some sm.

Definition new_order (env : Env) (d : Db) (product_id shipping_address_id : nat)
    (cu : User.t) (product : Product.t) (sm : string) : Order.t :=
  Order.mk (next_id Order.id (orders d)) product_id (User.id cu) (now env)
    "pending" sm shipping_address_id (Product.price product).

(** ** A run: a seller lists a lamp, a buyer orders it *)

Module Demo.
Definition env (t : nat) : Env :=
  mkEnv t "9f1c2b7a4d5e4c0f8a6b3e2d1c0f9e8d" "scrypt:32768:8:1$salt$digest".

Definition sam : RegisterForm :=
  mkRegisterForm (Some "sam") (Some "sam@example.org") (Some "s3cret")
    (Some "seller").
Definition bea : RegisterForm :=
  mkRegisterForm (Some "bea") (Some "bea@example.org") (Some "hunter2")
    None.

Definition cy : RegisterForm :=
  mkRegisterForm (Some "cy") (Some "cy@example.org") (Some "pa55")
    (Some "buyer").

Definition lamp (pr : Q) (image : option FileStorage) : ProductForm :=
  mkProductForm true (Some "Lamp") (Some "A desk lamp") None (Some "全新")
    (Some (Finite pr)) image.

Definition lamp_jpg : FileStorage := mkFile "lamp.JPG" "...".

Definition home_address : ShippingAddressForm :=
  mkShippingAddressForm true (Some "Bea") (Some "0912345678")
    (Some "1 Main Road") None (Some "Taipei") (Some "Taipei") (Some "100")
    (Some "Taiwan").

Definition by_courier : OrderForm := mkOrderForm true (Some "宅配").

(** The rows the run leaves. *)
Definition sam_row : User.t :=
  User.mk 1 "sam" "sam@example.org" "scrypt:32768:8:1$salt$digest" "seller".
Definition bea_row : User.t :=
  User.mk 2 "bea" "bea@example.org" "scrypt:32768:8:1$salt$digest" "buyer".
Definition lamp_row : Product.t :=
  Product.mk 1 "Lamp" "A desk lamp" None "全新" (Finite 100)
    "9f1c2b7a4d5e4c0f8a6b3e2d1c0f9e8d.JPG" 1.
Definition address_row : ShippingAddress.t :=
  ShippingAddress.mk 1 2 "Bea" "0912345678" "1 Main Road" None "Taipei"
    "Taipei" "100" "Taiwan".
Definition order_row : Order.t :=
  Order.mk 1 1 2 5 "pending" "宅配" 1 (Finite 100).

Definition w0 : World := mkWorld empty_db {[ default_jpg ]}.
Definition w1 : World := (handle (env 1) None (req_register POST sam) w0).2.
Definition w2 : World := (handle (env 2) None (req_register POST bea) w1).2.
Definition w3 : World :=
  (handle (env 3) (Some 1)
     (req_create_product POST (lamp 100 (Some lamp_jpg))) w2).2.
Definition w4 : World :=
  (handle (env 4) (Some 2) (req_shipping_address 1 POST home_address) w3).2.
Definition w5 : World :=
  (handle (env 5) (Some 2) (req_confirm_order 1 1 POST by_courier) w4).2.
Definition w6 : World := (handle (env 6) None (req_register POST cy) w5).2.
Definition w7 : World :=
  (handle (env 9) (Some 2) (req_confirm_order 1 1 POST by_courier) w6).2.
Definition cy_row : User.t :=
  User.mk 3 "cy" "cy@example.org" "scrypt:32768:8:1$salt$digest" "buyer".
End Demo.

(** ** The writes of a request, in full

    [commit w w'] lists what a request can leave of the world [w]: for each
    write of a handler, the row written and what the handler has checked
    before. *)

Inductive commit (w : World) : World → Prop :=
| commit_nothing : commit w w
| commit_user un em hash role :
    first_by_username (db w) (Some un) = None →
    first_by_email (db w) (Some em) = None →
    commit w
      (mkWorld
         (with_users (db w)
            (users (db w) ++
             [User.mk (next_id User.id (users (db w))) un em hash role]))
         (uploads w))
| commit_product cu n de sp c pr picture up :
    get_user (db w) (User.id cu) = Some cu →
    User.role cu = "seller" →
    data_required (Some n) = true →
    data_required (Some de) = true →
    c ∈ condition_choices →
    positive pr →
    (picture = default_jpg ∧ up = uploads w) ∨ up = {[ picture ]} ∪ uploads w →
    commit w
      (mkWorld
         (with_products (db w)
            (products (db w) ++
             [Product.mk (next_id Product.id (products (db w))) n de sp c pr
                picture (User.id cu)]))
         up)
| commit_update cu product n de sp c pr picture up :
    get_user (db w) (User.id cu) = Some cu →
    product ∈ products (db w) →
    Product.seller_id product = User.id cu →
    data_required (Some n) = true →
    data_required (Some de) = true →
    c ∈ condition_choices →
    positive pr →
    (picture = Product.image_filename product ∧ up = uploads w)
    ∨ up = {[ picture ]} ∪ remove_picture product (uploads w) →
    commit w
      (mkWorld
         (with_products (db w)
            (update_row
               (Product.mk (Product.id product) n de sp c pr picture
                  (Product.seller_id product))
               (products (db w))))
         up)
| commit_delete cu product :
    get_user (db w) (User.id cu) = Some cu →
    product ∈ products (db w) →
    Product.seller_id product = User.id cu →
    has_orders (db w) product = false →
    commit w
      (mkWorld
         (with_products (db w) (delete_row product (products (db w))))
         (remove_picture product (uploads w)))
| commit_picture cu product :
    get_user (db w) (User.id cu) = Some cu →
    product ∈ products (db w) →
    Product.seller_id product = User.id cu →
    commit w (mkWorld (db w) (remove_picture product (uploads w)))
| commit_address cu rn ph l1 l2 ci st zc co :
    get_user (db w) (User.id cu) = Some cu →
    User.role cu = "buyer" →
    data_required (Some rn) = true →
    data_required (Some ph) = true →
    data_required (Some l1) = true →
    data_required (Some ci) = true →
    data_required (Some st) = true →
    data_required (Some zc) = true →
    data_required (Some co) = true →
    commit w
      (mkWorld
         (with_shipping_addresses (db w)
            (shipping_addresses (db w) ++
             [ShippingAddress.mk
                (next_id ShippingAddress.id (shipping_addresses (db w)))
                (User.id cu) rn ph l1 l2 ci st zc co]))
         (uploads w))
| commit_order cu product address t sm :
    get_user (db w) (User.id cu) = Some cu →
    User.role cu = "buyer" →
    get_product (db w) (Product.id product) = Some product →
    get_shipping_address (db w) (ShippingAddress.id address) = Some address →
    ShippingAddress.user_id address = User.id cu →
    sm ∈ shipping_method_choices →
    commit w
      (mkWorld
         (with_orders (db w)
            (orders (db w) ++
             [Order.mk (next_id Order.id (orders (db w))) (Product.id product)
                (User.id cu) t "pending" sm (ShippingAddress.id address)
                (Product.price product)]))
         (uploads w)).

(** [serves w w']: the application, in the world [w], serves some requests
    and is in the world [w']. *)
Inductive serves (w : World) : World → Prop :=
| serves_none : serves w w
| serves_more w' env session r :
    serves w w' → serves w (handle env session r w').2.

(** What the rows of a product, an address and an order are made of. *)
Definition valid_product (p : Product.t) : Prop :=
  data_required (Some (Product.name p)) = true
  ∧ data_required (Some (Product.description p)) = true
  ∧ Product.condition p ∈ condition_choices
  ∧ positive (Product.price p).

Definition valid_address (a : ShippingAddress.t) : Prop :=
  data_required (Some (ShippingAddress.recipient_name a)) = true
  ∧ data_required (Some (ShippingAddress.phone_number a)) = true
  ∧ data_required (Some (ShippingAddress.address_line1 a)) = true
  ∧ data_required (Some (ShippingAddress.city a)) = true
  ∧ data_required (Some (ShippingAddress.state a)) = true
  ∧ data_required (Some (ShippingAddress.zip_code a)) = true
  ∧ data_required (Some (ShippingAddress.country a)) = true.

Definition valid_order (o : Order.t) : Prop :=
  Order.status o = "pending"
  ∧ Order.shipping_method o ∈ shipping_method_choices
  ∧ positive (Order.total_price o).

(** The keys and the references of a database. *)
Record Keys (d : Db) : Prop := mkKeys {
  keys_users : NoDup (map User.id (users d));
  keys_products : NoDup (map Product.id (products d));
  keys_addresses : NoDup (map ShippingAddress.id (shipping_addresses d));
  keys_orders : NoDup (map Order.id (orders d));
  keys_usernames : NoDup (map User.username (users d));
  keys_emails : NoDup (map User.email (users d))
}.

Record References (d : Db) : Prop := mkReferences {
  ref_seller : ∀ p, p ∈ products d →
    ∃ u, get_user d (Product.seller_id p) = Some u ∧ User.role u = "seller";
  ref_owner : ∀ a, a ∈ shipping_addresses d →
    ∃ u, get_user d (ShippingAddress.user_id a) = Some u
         ∧ User.role u = "buyer";
  ref_buyer : ∀ o, o ∈ orders d →
    ∃ u, get_user d (Order.buyer_id o) = Some u ∧ User.role u = "buyer";
  ref_address : ∀ o, o ∈ orders d →
    ∃ a, get_shipping_address d (Order.shipping_address_id o) = Some a
         ∧ ShippingAddress.user_id a = Order.buyer_id o;
  ref_product : ∀ o, o ∈ orders d →
    ∃ p, get_product d (Order.product_id o) = Some p
}.

(** ** [allowed_file] *)

(** [s.rsplit('.', 1)[1]] when [s] has a dot: the text after the last dot;
    [None] when [s] has no dot. *)
Fixpoint after_last_dot (s : string) : option string :=
  match s with
  | EmptyString => None
  | String c r =>
    match after_last_dot r with
    | Some t => Some t
    | None => if Ascii.eqb c "." then Some r else None
    end
  end.

Definition ALLOWED_EXTENSIONS : list string := ["png"; "jpg"; "jpeg"; "gif"].

Definition allowed_file (filename : string) : bool :=
  match after_last_dot filename with
  | Some ext => existsb (String.eqb (lower ext)) ALLOWED_EXTENSIONS
  | None => false
  end.

(** ** Who may ask what *)

(** The handlers that [app.py] decorates with [@login_required]. *)
Definition login_required (r : Request) : bool :=
  match r with
  | req_home | req_product_detail _ | req_register _ _ => false
  | _ => true
  end.

Definition no_edit : Response :=
  flash_redirect "您無權編輯此商品" "danger" ep_home.
Definition no_delete : Response :=
  flash_redirect "您無權刪除此商品" "danger" ep_home.
Definition email_exists : Response :=
  flash_redirect "Email already registered. Please use a different email."
    "danger" ep_register.
Definition account_created : Response :=
  flash_redirect "Your account has been created! You are now able to log in."
    "success" ep_login.
Definition address_saved (product_id shipping_address_id : nat) : Response :=
  flash_redirect "新收件地址已儲存！" "success"
    (ep_confirm_order product_id shipping_address_id).

(** ** Logging in and out *)

(** [request.form] of the login page. *)
Record LoginForm := mkLoginForm {
  lf_username : option string;
  lf_password : option string
}.

(** What [login] and [logout] answer with: a redirect to the home page, to
    the login page or to the page the query string names, the login page
    itself, or an error. *)
Inductive login_body :=
| to_home
| to_login
| to_next_page (url : string)
| login_html
| login_abort (status_code : nat).

Record LoginResponse := mkLoginResponse {
  login_flashed : option (string * string);
  login_resp_body : login_body
}.

Definition login_successful : option (string * string) :=
  Some ("Login successful!", "success").
Definition login_unsuccessful : option (string * string) :=
  Some ("Login Unsuccessful. Please check username and password", "danger").

(** [redirect(next_page or url_for('home'))]. *)
Definition next_or_home (next_page : option string) : login_body :=
  match next_page with
  | Some url => if String.eqb url "" then to_home else to_next_page url
  | None => to_home
  end.

(** [login]: the handler answers and leaves a session.  The check of a
    password against a stored hash, [check_password_hash] of Werkzeug, is a
    parameter; a password that was not sent cannot be checked. *)
Definition login (check_password_hash : string → string → bool)
    (session : option nat) (meth : http_method) (form : LoginForm)
    (next_page : option string) (d : Db) : LoginResponse * option nat :=
  match current_user session d with
  | Some _ => (mkLoginResponse None to_home, session)
  | None =>
    match meth with
    | POST =>
      let username := lf_username form in
      let password := lf_password form in
      match first_by_username d username with
      | Some user =>
        match password with
        | Some pw =>
          if check_password_hash (User.password_hash user) pw
          then (mkLoginResponse login_successful (next_or_home next_page),
                Some (User.id user))
          else (mkLoginResponse login_unsuccessful login_html, session)
        | None => (mkLoginResponse None (login_abort 500), session)
        end
      | None => (mkLoginResponse login_unsuccessful login_html, session)
      end
    | _ => (mkLoginResponse None login_html, session)
    end
  end.

(** [logout], under [@login_required]. *)
Definition logout (session : option nat) (d : Db)
  : LoginResponse * option nat :=
  match current_user session d with
  | None =>
    (mkLoginResponse (Some ("Please log in to access this page.", "message"))
       to_login, session)
  | Some _ =>
    (mkLoginResponse (Some ("You have been logged out.", "info")) to_home,
     None)
  end.

(** * Properties *)

(** ** Python values *)

Example splitext_photo : splitext_ext "holiday.photo.JPG" = ".JPG".
Proof. reflexivity. Qed.

Example splitext_hidden : splitext_ext "dir.d/..rc" = "".
Proof. reflexivity. Qed.

Example strip_ideographic : strip_is_empty "　 " = true.
Proof. reflexivity. Qed.

Example strip_name : strip_is_empty " 全新 " = false.
Proof. reflexivity. Qed.

Lemma min_price_positive : float_lt float_zero min_price = true.
Proof. reflexivity. Qed.

(** What [NumberRange(min=0.01)] lets through is above zero. *)
Lemma number_range_positive pr :
  number_range_min min_price (Some pr) = true →
  float_lt float_zero pr = true.
Proof.
  destruct pr as [q| | |]; simpl; try done.
  rewrite !negb_involutive. intros Hle.
  apply Qle_bool_iff in Hle.
  destruct (Qle_bool q 0) eqn:Hq; [|done].
  apply Qle_bool_iff in Hq.
  assert (Hpos : (0 < 5764607523034235 # 576460752303423488)%Q) by done.
  exfalso. eapply Qlt_not_le; [exact Hpos|].
  eapply Qle_trans; eauto.
Qed.

(** A price that is zero or below fails the validators. *)
Lemma number_range_rejects pr :
  float_ge float_zero pr = true →
  number_range_min min_price (Some pr) = false.
Proof.
  intros Hle.
  destruct (number_range_min min_price (Some pr)) eqn:Hv; [|done].
  apply number_range_positive in Hv.
  destruct pr; simpl in *; try done.
  rewrite Hv in Hle. done.
Qed.

(** ** Queries *)

Section Tables.
Context {A : Type} (key : A → nat).
Implicit Types (rows : list A) (r : A) (i : nat).

Lemma get_Some rows i r : get key i rows = Some r → key r = i ∧ r ∈ rows.
Proof.
  unfold get. intros H. apply find_some in H as [Hin He].
  apply Nat.eqb_eq in He. by rewrite list_elem_of_In.
Qed.

Lemma get_None rows i :
  get key i rows = None → ∀ r, r ∈ rows → key r ≠ i.
Proof.
  unfold get. intros H r Hr%list_elem_of_In He.
  eapply find_none in H; [|done]. simpl in H.
  apply Nat.eqb_neq in H. done.
Qed.

Lemma get_app rows rows' i :
  get key i (rows ++ rows') =
  match get key i rows with
  | Some r => Some r
  | None => get key i rows'
  end.
Proof.
  unfold get. induction rows as [|x l IH]; simpl; [done|].
  destruct (key x =? i); done.
Qed.

(** A row that is found stays found when rows are appended. *)
Lemma get_app_Some rows rows' i r :
  get key i rows = Some r → get key i (rows ++ rows') = Some r.
Proof. intros H. by rewrite get_app, H. Qed.

Lemma next_id_above rows r : r ∈ rows → key r < next_id key rows.
Proof.
  unfold next_id. induction 1 as [|x y l Hin IH]; simpl in *; lia.
Qed.

Lemma next_id_fresh rows : get key (next_id key rows) rows = None.
Proof.
  destruct (get key (next_id key rows) rows) as [r|] eqn:H; [|done].
  apply get_Some in H as [He Hin]. apply next_id_above in Hin. lia.
Qed.

Lemma next_id_NoDup rows r :
  NoDup (map key rows) → key r = next_id key rows →
  NoDup (map key (rows ++ [r])).
Proof.
  intros Hnd He. rewrite map_app. simpl.
  apply NoDup_app. split; [done|]. split; [|apply NoDup_singleton].
  intros i Hi Hi'. apply list_elem_of_singleton in Hi'. subst i.
  apply list_elem_of_fmap in Hi as [x [Hx Hin]].
  apply next_id_above in Hin. lia.
Qed.
End Tables.

(** ** Every request is a step of the database *)

Lemma current_user_get session d cu :
  current_user session d = Some cu → get_user d (User.id cu) = Some cu.
Proof.
  destruct session as [uid|]; simpl; [|done].
  intros H. pose proof (get_Some _ _ _ _ H) as [-> _]. done.
Qed.

Lemma validate_on_submit_true meth valid :
  validate_on_submit meth valid = true → meth = POST ∧ valid = true.
Proof. destruct meth, valid; simpl; done. Qed.

Lemma ProductForm_valid_price form pr :
  ProductForm_validate form = true → pf_price form = Some pr → positive pr.
Proof.
  unfold ProductForm_validate. intros Hv Hp. rewrite Hp in Hv.
  repeat (apply andb_prop in Hv as [Hv ?]).
  by apply number_range_positive.
Qed.

Lemma may_not_buy_false d cu p :
  may_not_buy d cu p = Some false →
  User.role cu = "buyer"
  ∧ ∃ s, seller d p = Some s ∧ User.id cu ≠ User.id s.
Proof.
  unfold may_not_buy.
  destruct (String.eqb (User.role cu) "buyer") eqn:Hr; simpl; [|done].
  apply String.eqb_eq in Hr.
  destruct (seller d p) as [s|]; [|done].
  intros [= Hne]. apply Nat.eqb_neq in Hne. eauto.
Qed.

Lemma role_eqb_true (u : User.t) (r : string) :
  negb (String.eqb (User.role u) r) = false → User.role u = r.
Proof. intros H. apply String.eqb_eq. by destruct (String.eqb _ _). Qed.

Lemma seller_is_not_false d p cu :
  seller_is_not d p cu = false →
  ∃ s, seller d p = Some s ∧ User.id s = User.id cu.
Proof.
  unfold seller_is_not. destruct (seller d p) as [s|]; [|done].
  intros H. exists s. split; [done|].
  apply Nat.eqb_eq. by destruct (_ =? _).
Qed.

Lemma create_product_db_step env session meth form w :
  db_step (db w) (db (create_product env session meth form w).2).
Proof.
  unfold create_product.
  destruct (current_user session (db w)) as [cu|] eqn:Hcu; [|apply step_read].
  destruct (negb (String.eqb (User.role cu) "seller")) eqn:Hrole;
    [apply step_read|].
  destruct (validate_on_submit meth (ProductForm_validate form)) eqn:Hv;
    [|apply step_read].
  apply validate_on_submit_true in Hv as [_ Hv].
  destruct (match pf_image form with Some _ => _ | None => _ end)
    as [picture_file up].
  destruct (pf_name form) as [n|]; [|apply step_read].
  destruct (pf_description form) as [de|]; [|apply step_read].
  destruct (pf_condition form) as [c|]; [|apply step_read].
  destruct (pf_price form) as [pr|] eqn:Hpr; [|apply step_read].
  simpl. eapply step_create_product with (cu := cu); simpl;
    eauto using current_user_get, role_eqb_true, ProductForm_valid_price.
Qed.

Lemma register_db_step env session meth form w :
  db_step (db w) (db (register env session meth form w).2).
Proof.
  unfold register.
  repeat case_match; simpl; try apply step_read.
  by apply step_register.
Qed.

Lemma update_product_db_step env session product_id meth form w :
  db_step (db w) (db (update_product env session product_id meth form w).2).
Proof.
  unfold update_product.
  destruct (current_user session (db w)) as [cu|] eqn:Hcu; [|apply step_read].
  destruct (get_product (db w) product_id) as [product|] eqn:Hp;
    [|apply step_read].
  destruct (seller_is_not (db w) product cu); [apply step_read|].
  destruct (validate_on_submit meth (ProductForm_validate form)) eqn:Hv;
    [|apply step_read].
  apply validate_on_submit_true in Hv as [_ Hv].
  destruct (match pf_image form with Some _ => _ | None => _ end)
    as [image_filename up].
  destruct (pf_name form) as [n|]; [|apply step_read].
  destruct (pf_description form) as [de|]; [|apply step_read].
  destruct (pf_condition form) as [c|]; [|apply step_read].
  destruct (pf_price form) as [pr|] eqn:Hpr; [|apply step_read].
  simpl. apply get_Some in Hp as [_ Hin].
  eapply step_update_product with (p := product); simpl;
    eauto using ProductForm_valid_price.
Qed.

Lemma delete_product_db_step session product_id w :
  db_step (db w) (db (delete_product session product_id w).2).
Proof.
  unfold delete_product.
  repeat case_match; simpl; try apply step_read.
  apply step_delete_product.
Qed.

Lemma shipping_address_db_step session product_id meth form w :
  db_step (db w) (db (shipping_address session product_id meth form w).2).
Proof.
  unfold shipping_address.
  destruct (current_user session (db w)) as [cu|] eqn:Hcu; [|apply step_read].
  repeat case_match; simpl; try apply step_read.
  eapply step_shipping_address with (cu := cu); simpl;
    eauto using current_user_get.
Qed.

Lemma confirm_order_db_step env session product_id shipping_address_id meth
    form w :
  db_step (db w)
    (db (confirm_order env session product_id shipping_address_id meth
           form w).2).
Proof.
  unfold confirm_order.
  destruct (current_user session (db w)) as [cu|] eqn:Hcu; [|apply step_read].
  destruct (get_product (db w) product_id) as [product|] eqn:Hp;
    [|apply step_read].
  destruct (get_shipping_address (db w) shipping_address_id)
    as [address|] eqn:Ha; [|apply step_read].
  destruct (may_not_buy (db w) cu product) as [[|]|] eqn:Hbuy;
    try apply step_read.
  destruct (negb (ShippingAddress.user_id address =? User.id cu)) eqn:Hown;
    [apply step_read|].
  destruct (validate_on_submit meth (OrderForm_validate form));
    [|apply step_read].
  destruct (of_shipping_method form) as [sm|]; [|apply step_read].
  simpl. apply may_not_buy_false in Hbuy as [Hrole _].
  pose proof (get_Some _ _ _ _ Ha) as [Hid _].
  eapply step_confirm_order with (cu := cu) (a := address); simpl;
    eauto using current_user_get.
  - by rewrite Hid.
  - apply Nat.eqb_eq. by destruct (_ =? _).
Qed.

Lemma handle_db_step env session r w :
  db_step (db w) (db (handle env session r w).2).
Proof.
  destruct r; simpl;
    auto using create_product_db_step, register_db_step,
      update_product_db_step, delete_product_db_step,
      shipping_address_db_step, confirm_order_db_step;
    unfold home, product_detail, seller_products, create_order,
      select_shipping_address, my_orders;
    repeat case_match; apply step_read.
Qed.

(** ** The invariant holds in every reachable world *)

Lemma Inv_empty : Inv empty_db.
Proof.
  split; simpl; try (intros ? H; by apply not_elem_of_nil in H).
  apply NoDup_nil_2.
Qed.

Lemma elem_of_update_row p' rows r :
  r ∈ update_row p' rows → r = p' ∨ r ∈ rows.
Proof.
  unfold update_row. intros H. apply list_elem_of_fmap in H as [x [-> Hx]].
  destruct (_ =? _); auto.
Qed.

Lemma elem_of_delete_row p rows r : r ∈ delete_row p rows → r ∈ rows.
Proof.
  unfold delete_row. intros H. by apply list_elem_of_filter in H as [_ H].
Qed.

Lemma db_step_Inv d d' : db_step d d' → Inv d → Inv d'.
Proof.
  intros Hstep [Hs Hb Ha Hp Hn].
  destruct Hstep as
    [ | u Hid
      | cu p Hcu Hrole Hsel Hid Hpos
      | p p' Hin Hid Hsel Hpos
      | p
      | cu a Hcu Hown Hid
      | cu a o Hcu Hrole Hget Hown Hbuy Hid ].
  - by split.
  - split; simpl; try done.
    + intros p Hin. destruct (Hs p Hin) as [s [Hg Hr]].
      exists s. split; [|done]. by apply get_app_Some.
    + intros o Hin. destruct (Hb o Hin) as [b [Hg Hr]].
      exists b. split; [|done]. by apply get_app_Some.
  - split; simpl; try done.
    + intros q [Hin| ->%list_elem_of_singleton]%elem_of_app; [by apply Hs|].
      exists cu. by rewrite Hsel.
    + intros q [Hin| ->%list_elem_of_singleton]%elem_of_app; [by apply Hp|done].
  - split; simpl; try done.
    + intros q [->|Hq]%elem_of_update_row; [|by apply Hs].
      rewrite Hsel. by apply Hs.
    + intros q [->|Hq]%elem_of_update_row; [done|by apply Hp].
  - split; simpl; try done.
    + intros q Hq%elem_of_delete_row. by apply Hs.
    + intros q Hq%elem_of_delete_row. by apply Hp.
  - split; simpl; try done.
    intros o Hin. destruct (Ha o Hin) as [b [Hg Hr]].
    exists b. split; [|done]. by apply get_app_Some.
  - split; simpl; try done.
    + intros q [Hin| ->%list_elem_of_singleton]%elem_of_app; [by apply Hb|].
      exists cu. by rewrite Hbuy.
    + intros q [Hin| ->%list_elem_of_singleton]%elem_of_app; [by apply Ha|].
      exists a. split; [done|]. by rewrite Hbuy.
    + by apply next_id_NoDup.
Qed.

Lemma reachable_Inv w : reachable w → Inv (db w).
Proof.
  induction 1 as [up|w env session r _ IH]; simpl.
  - apply Inv_empty.
  - eapply db_step_Inv; [apply handle_db_step|done].
Qed.

(** In a database that satisfies the invariant no buyer of an order sells
    a product. *)
Lemma Inv_buyer_not_seller d o p :
  Inv d → o ∈ orders d → p ∈ products d →
  Order.buyer_id o ≠ Product.seller_id p.
Proof.
  intros [Hs Hb _ _ _] Ho Hp Heq.
  destruct (Hs p Hp) as [s [Hgs Hrs]].
  destruct (Hb o Ho) as [b [Hgb Hrb]].
  rewrite Heq, Hgs in Hgb. injection Hgb as ->.
  rewrite Hrs in Hrb. discriminate.
Qed.

(** ** Confirming an order *)

Lemma confirm_order_writes env session product_id shipping_address_id meth
    form w cu product address sm :
  can_confirm (db w) session product_id shipping_address_id meth form cu
    product address sm →
  confirm_order env session product_id shipping_address_id meth form w =
  (order_created,
   mkWorld
     (with_orders (db w)
        (orders (db w) ++
         [new_order env (db w) product_id shipping_address_id cu product sm]))
     (uploads w)).
Proof.
  intros (Hcu & Hp & Ha & Hbuy & Hown & Hv & Hsm).
  unfold confirm_order. rewrite Hcu, Hp, Ha, Hbuy, Hown, Nat.eqb_refl, Hv, Hsm.
  simpl. apply get_Some in Hp as [-> _]. apply get_Some in Ha as [-> _].
  done.
Qed.

Lemma confirm_order_created env session product_id shipping_address_id meth
    form w :
  (confirm_order env session product_id shipping_address_id meth form w).1
    = order_created →
  ∃ cu product address sm,
    can_confirm (db w) session product_id shipping_address_id meth form cu
      product address sm.
Proof.
  unfold confirm_order.
  destruct (current_user session (db w)) as [cu|] eqn:Hcu; [|done].
  destruct (get_product (db w) product_id) as [product|] eqn:Hp; [|done].
  destruct (get_shipping_address (db w) shipping_address_id)
    as [address|] eqn:Ha; [|done].
  destruct (may_not_buy (db w) cu product) as [[|]|] eqn:Hbuy; try done.
  destruct (negb (ShippingAddress.user_id address =? User.id cu)) eqn:Hown;
    [done|].
  destruct (validate_on_submit meth (OrderForm_validate form)) eqn:Hv;
    [|done].
  destruct (of_shipping_method form) as [sm|] eqn:Hsm; [|done].
  intros _. exists cu, product, address, sm. repeat split; try done.
  apply Nat.eqb_eq. by destruct (_ =? _).
Qed.

(** A request by the seller of the product leaves the world as it is. *)
Lemma confirm_order_own_product env session product_id shipping_address_id
    meth form w cu product :
  current_user session (db w) = Some cu →
  get_product (db w) product_id = Some product →
  User.id cu = Product.seller_id product →
  confirm_order env session product_id shipping_address_id meth form w =
  (match get_shipping_address (db w) shipping_address_id with
   | Some _ => no_purchase
   | None => plain (abort (missing_status shipping_address_id))
   end, w).
Proof.
  intros Hcu Hp Hid. unfold confirm_order. rewrite Hcu, Hp.
  destruct (get_shipping_address _ _); [|done].
  unfold may_not_buy, seller. rewrite <- Hid, (current_user_get _ _ _ Hcu).
  rewrite Nat.eqb_refl. by destruct (negb _).
Qed.

Lemma Demo_reachable : reachable Demo.w5.
Proof. repeat apply reachable_step. apply reachable_start. Qed.

(** The two values of [missing_status]. *)
Lemma missing_status_cases i :
  missing_status i = 404 ∨ missing_status i = 500.
Proof. unfold missing_status. destruct (_ <=? _)%Z; auto. Qed.

(** C1. In every reachable world the buyer of an order is not the seller of
    the product ordered; and a confirm-order request by a user whose id is
    the seller id of the product leaves the world, hence the orders, as
    they were and is never answered as an order made: when the address
    exists it is answered by the no-purchase redirect, and when no address
    has the id it is answered 404, or 500 for an id beyond the integers of
    the database. *)
Theorem no_self_purchase :
  (∀ w o p,
     reachable w → o ∈ orders (db w) →
     get_product (db w) (Order.product_id o) = Some p →
     Order.buyer_id o ≠ Product.seller_id p)
  ∧ (∀ env session product_id shipping_address_id meth form w cu p,
       current_user session (db w) = Some cu →
       get_product (db w) product_id = Some p →
       User.id cu = Product.seller_id p →
       let r := confirm_order env session product_id shipping_address_id
                  meth form w in
       r.2 = w
       ∧ (is_Some (get_shipping_address (db w) shipping_address_id) →
          r.1 = no_purchase)
       ∧ (get_shipping_address (db w) shipping_address_id = None →
          r.1 = plain (abort
                  (if (Z.of_nat shipping_address_id <=? max_int)%Z
                   then 404 else 500)))
       ∧ (r.1 = no_purchase ∨ r.1 = plain (abort 404)
          ∨ r.1 = plain (abort 500))
       ∧ r.1 ≠ order_created).
Proof.
  split.
  - intros w o p Hw Ho Hp. apply get_Some in Hp as [_ Hp].
    eapply Inv_buyer_not_seller; eauto using reachable_Inv.
  - intros env session product_id shipping_address_id meth form w cu p
      Hcu Hp Hid. simpl.
    rewrite (confirm_order_own_product _ _ _ _ _ _ _ _ _ Hcu Hp Hid). simpl.
    split; [done|].
    destruct (get_shipping_address (db w) shipping_address_id) as [a|].
    + split; [done|]. split; [done|]. split; [by left|done].
    + split; [by intros [? ?]|]. split; [done|]. split; [|done].
      right. destruct (missing_status_cases shipping_address_id) as [->| ->];
        auto.
Qed.

Lemma Demo_db :
  db Demo.w5 =
  mkDb [Demo.sam_row; Demo.bea_row] [Demo.lamp_row] [Demo.address_row]
    [Demo.order_row].
Proof. reflexivity. Qed.

Lemma no_self_purchase_witness :
  Order.buyer_id Demo.order_row ≠ Product.seller_id Demo.lamp_row
  ∧ (confirm_order (Demo.env 6) (Some 1) 1 1 POST Demo.by_courier Demo.w5).2
    = Demo.w5
  ∧ (confirm_order (Demo.env 6) (Some 1) 1 1 POST Demo.by_courier Demo.w5).1
    = no_purchase
  ∧ (confirm_order (Demo.env 6) (Some 1) 1 9 POST Demo.by_courier Demo.w5).1
    = plain (abort 404).
Proof.
  split; [|split; [|split]].
  - apply (proj1 no_self_purchase Demo.w5 Demo.order_row Demo.lamp_row
             Demo_reachable).
    + rewrite Demo_db. simpl. apply list_elem_of_here.
    + reflexivity.
  - refine (proj1 (proj2 no_self_purchase (Demo.env 6) (Some 1) 1 1 POST
        Demo.by_courier Demo.w5 Demo.sam_row Demo.lamp_row _ _ _));
      reflexivity.
  - refine (proj1 (proj2 (proj2 no_self_purchase (Demo.env 6) (Some 1) 1 1
        POST Demo.by_courier Demo.w5 Demo.sam_row Demo.lamp_row _ _ _)) _);
      try reflexivity.
    by eexists.
  - refine (proj1 (proj2 (proj2 (proj2 no_self_purchase (Demo.env 6) (Some 1)
        1 9 POST Demo.by_courier Demo.w5 Demo.sam_row Demo.lamp_row _ _ _)))
        _); reflexivity.
Defined.

(** The orders of a reachable world have different ids. *)
Lemma reachable_order_ids w :
  reachable w → NoDup (map Order.id (orders (db w))).
Proof. intros Hw. apply (inv_order_ids _ (reachable_Inv _ Hw)). Qed.

(** In a database that satisfies the invariant a buyer may buy every
    product there is. *)
Lemma Inv_buyer_may_buy d cu p :
  Inv d → get_user d (User.id cu) = Some cu → User.role cu = "buyer" →
  p ∈ products d → may_not_buy d cu p = Some false.
Proof.
  intros [Hs _ _ _ _] Hcu Hrole Hp. unfold may_not_buy, seller.
  rewrite Hrole. simpl.
  destruct (Hs p Hp) as [s [Hg Hrs]]. rewrite Hg. f_equal.
  apply Nat.eqb_neq. intros Heq.
  pose proof (get_Some _ _ _ _ Hg) as [Hid _].
  rewrite Heq, Hid, Hg in Hcu. injection Hcu as ->.
  rewrite Hrole in Hrs. discriminate.
Qed.

(** A request that names an address of another user leaves the world as
    it is. *)
Lemma confirm_order_foreign_address env session product_id shipping_address_id
    meth form w cu a :
  current_user session (db w) = Some cu →
  get_shipping_address (db w) shipping_address_id = Some a →
  ShippingAddress.user_id a ≠ User.id cu →
  let r := confirm_order env session product_id shipping_address_id meth
             form w in
  r.2 = w ∧ r.1 ≠ order_created.
Proof.
  intros Hcu Ha Hne. simpl. unfold confirm_order. rewrite Hcu, Ha.
  apply Nat.eqb_neq in Hne. rewrite Hne. simpl.
  destruct (get_product _ _); [|done].
  destruct (may_not_buy _ _ _) as [[|]|]; done.
Qed.

(** C2. In every reachable world the shipping address of an order belongs
    to its buyer; there, a confirm-order request of a buyer for a product
    that exists, naming an address of another user, is answered by the
    redirect to the address step of that product; and in any world such a
    request leaves the world, hence the orders, as they were. *)
Theorem address_belongs_to_buyer :
  (∀ w o,
     reachable w → o ∈ orders (db w) →
     ∃ a, get_shipping_address (db w) (Order.shipping_address_id o) = Some a
          ∧ ShippingAddress.user_id a = Order.buyer_id o)
  ∧ (∀ env session product_id shipping_address_id meth form w cu p a,
       reachable w →
       current_user session (db w) = Some cu →
       User.role cu = "buyer" →
       get_product (db w) product_id = Some p →
       get_shipping_address (db w) shipping_address_id = Some a →
       ShippingAddress.user_id a ≠ User.id cu →
       confirm_order env session product_id shipping_address_id meth form w
       = (no_address product_id, w))
  ∧ (∀ env session product_id shipping_address_id meth form w cu a,
       current_user session (db w) = Some cu →
       get_shipping_address (db w) shipping_address_id = Some a →
       ShippingAddress.user_id a ≠ User.id cu →
       let r := confirm_order env session product_id shipping_address_id
                  meth form w in
       r.2 = w ∧ r.1 ≠ order_created).
Proof.
  split; [|split].
  - intros w o Hw Ho. by apply (inv_addresses _ (reachable_Inv _ Hw)).
  - intros env session product_id shipping_address_id meth form w cu p a
      Hw Hcu Hrole Hp Ha Hne.
    unfold confirm_order. rewrite Hcu, Hp, Ha.
    apply get_Some in Hp as [Hid Hin].
    rewrite (Inv_buyer_may_buy _ _ _ (reachable_Inv _ Hw)
               (current_user_get _ _ _ Hcu) Hrole Hin).
    apply Nat.eqb_neq in Hne. rewrite Hne. simpl. by rewrite Hid.
  - intros. by eapply confirm_order_foreign_address.
Qed.

Lemma Demo_w6_reachable : reachable Demo.w6.
Proof. repeat apply reachable_step. apply reachable_start. Qed.

Lemma address_belongs_to_buyer_witness :
  (∃ a, get_shipping_address (db Demo.w5)
          (Order.shipping_address_id Demo.order_row) = Some a
        ∧ ShippingAddress.user_id a = Order.buyer_id Demo.order_row)
  ∧ confirm_order (Demo.env 7) (Some 3) 1 1 POST Demo.by_courier Demo.w6
    = (no_address 1, Demo.w6)
  ∧ (confirm_order (Demo.env 7) (Some 3) 1 1 POST Demo.by_courier Demo.w6).2
    = Demo.w6.
Proof.
  split; [|split].
  - apply (proj1 address_belongs_to_buyer Demo.w5 Demo.order_row
             Demo_reachable).
    rewrite Demo_db. simpl. apply list_elem_of_here.
  - apply (proj1 (proj2 address_belongs_to_buyer) (Demo.env 7) (Some 3) 1 1
             POST Demo.by_courier Demo.w6 Demo.cy_row Demo.lamp_row
             Demo.address_row Demo_w6_reachable);
      try reflexivity.
    simpl. lia.
  - apply (proj2 (proj2 address_belongs_to_buyer) (Demo.env 7) (Some 3) 1 1
             POST Demo.by_courier Demo.w6 Demo.cy_row Demo.address_row);
      try reflexivity.
    simpl. lia.
Defined.

(** C3. Whenever [confirm_order] answers that the order is made, the order
    table of the world it leaves is the table it found with one order
    appended, which is its last row, and the users, the products, the
    addresses and the upload folder are as they were: the order has an id
    no order had, the product, the address and the shipping method of the
    request, the user of the session as buyer, the status pending, the
    date of the request, and as total price the price the product has in
    the world the request runs in. *)
Theorem confirm_order_creates env session product_id shipping_address_id
    meth form w :
  (confirm_order env session product_id shipping_address_id meth form w).1
    = order_created →
  let w' := (confirm_order env session product_id shipping_address_id meth
               form w).2 in
  ∃ cu product o,
    current_user session (db w) = Some cu
    ∧ get_product (db w) product_id = Some product
    ∧ w' = mkWorld (with_orders (db w) (orders (db w) ++ [o])) (uploads w)
    ∧ orders (db w') = (orders (db w) ++ [o])%list
    ∧ o ∈ orders (db w')
    ∧ last (orders (db w')) = Some o
    ∧ length (orders (db w')) = S (length (orders (db w)))
    ∧ get Order.id (Order.id o) (orders (db w)) = None
    ∧ users (db w') = users (db w)
    ∧ products (db w') = products (db w)
    ∧ shipping_addresses (db w') = shipping_addresses (db w)
    ∧ uploads w' = uploads w
    ∧ Order.total_price o = Product.price product
    ∧ Order.status o = "pending"
    ∧ of_shipping_method form = Some (Order.shipping_method o)
    ∧ Order.product_id o = product_id
    ∧ Order.buyer_id o = User.id cu
    ∧ Order.shipping_address_id o = shipping_address_id
    ∧ Order.order_date o = now env
    ∧ Order.id o = next_id Order.id (orders (db w)).
Proof.
  intros Hok. simpl.
  apply confirm_order_created in Hok as (cu & product & address & sm & Hc).
  rewrite (confirm_order_writes env _ _ _ _ _ _ _ _ _ _ Hc).
  destruct Hc as (Hcu & Hp & Ha & Hbuy & Hown & Hv & Hsm).
  exists cu, product,
    (new_order env (db w) product_id shipping_address_id cu product sm).
  simpl. split; [done|]. split; [done|]. split; [done|]. split; [done|].
  split; [apply elem_of_app; right; apply list_elem_of_here|].
  split; [apply last_snoc|].
  split; [rewrite length_app; simpl; lia|].
  split; [apply next_id_fresh|].
  repeat split; done.
Qed.

Lemma confirm_order_creates_witness :
  let w' := (confirm_order (Demo.env 5) (Some 2) 1 1 POST Demo.by_courier
               Demo.w4).2 in
  ∃ cu product o,
    current_user (Some 2) (db Demo.w4) = Some cu
    ∧ get_product (db Demo.w4) 1 = Some product
    ∧ w' = mkWorld (with_orders (db Demo.w4) (orders (db Demo.w4) ++ [o]))
             (uploads Demo.w4)
    ∧ orders (db w') = (orders (db Demo.w4) ++ [o])%list
    ∧ o ∈ orders (db w')
    ∧ last (orders (db w')) = Some o
    ∧ length (orders (db w')) = S (length (orders (db Demo.w4)))
    ∧ get Order.id (Order.id o) (orders (db Demo.w4)) = None
    ∧ users (db w') = users (db Demo.w4)
    ∧ products (db w') = products (db Demo.w4)
    ∧ shipping_addresses (db w') = shipping_addresses (db Demo.w4)
    ∧ uploads w' = uploads Demo.w4
    ∧ Order.total_price o = Product.price product
    ∧ Order.status o = "pending"
    ∧ of_shipping_method Demo.by_courier = Some (Order.shipping_method o)
    ∧ Order.product_id o = 1
    ∧ Order.buyer_id o = User.id cu
    ∧ Order.shipping_address_id o = 1
    ∧ Order.order_date o = now (Demo.env 5)
    ∧ Order.id o = next_id Order.id (orders (db Demo.w4)).
Proof.
  apply (confirm_order_creates (Demo.env 5) (Some 2) 1 1 POST Demo.by_courier
           Demo.w4).
  reflexivity.
Defined.

(** The price of an order is the price at confirmation: the seller lowers
    the price after the buyer chose the address, and the order made then
    carries the new price. *)
Example price_at_confirmation :
  let w := (update_product (Demo.env 5) (Some 1) 1 POST (Demo.lamp 80 None)
              Demo.w4).2 in
  (confirm_order (Demo.env 6) (Some 2) 1 1 POST Demo.by_courier w).1
    = order_created
  ∧ Order.total_price
      <$> last (orders (db (confirm_order (Demo.env 6) (Some 2) 1 1 POST
                               Demo.by_courier w).2))
    = Some (Finite 80).
Proof. split; reflexivity. Qed.

(** ** Registration *)

(** [register] stores the role it is sent, whatever it is. *)
Lemma register_stores_role env form w un em pw :
  rf_username form = Some un → rf_email form = Some em →
  rf_password form = Some pw →
  first_by_username (db w) (Some un) = None →
  first_by_email (db w) (Some em) = None →
  users (db (register env None POST form w).2)
  = (users (db w) ++
     [User.mk (next_id User.id (users (db w))) un em (salted_hash env)
        (default "buyer" (rf_role form))])%list.
Proof.
  intros Hu He Hp Hnu Hne. unfold register. simpl.
  rewrite Hu, He, Hp, Hnu, Hne. done.
Qed.

(** C4. A registration that sends the role admin creates a user whose role
    is admin, which is neither buyer nor seller. *)
Theorem register_admin_role :
  let form := mkRegisterForm (Some "eve") (Some "eve@example.org")
                (Some "pw") (Some "admin") in
  let w := (register (Demo.env 1) None POST form (mkWorld empty_db ∅)).2 in
  ∃ u, users (db w) = [u]
       ∧ User.role u = "admin"
       ∧ User.role u ≠ "buyer" ∧ User.role u ≠ "seller".
Proof.
  simpl. eexists. split; [reflexivity|]. simpl. repeat split; discriminate.
Qed.

(** ** Confirming twice *)

(** C5. When a confirm-order request is answered as an order made, the same
    request sent again is answered so too, and the two requests have
    appended two orders with different ids and the same total price, product,
    buyer, address and shipping method. *)
Theorem confirm_order_twice env1 env2 session product_id shipping_address_id
    meth form w :
  let r1 := confirm_order env1 session product_id shipping_address_id meth
              form w in
  let r2 := confirm_order env2 session product_id shipping_address_id meth
              form r1.2 in
  r1.1 = order_created →
  r2.1 = order_created
  ∧ ∃ o1 o2,
      orders (db r1.2) = (orders (db w) ++ [o1])%list
      ∧ orders (db r2.2) = (orders (db w) ++ [o1; o2])%list
      ∧ Order.id o1 ≠ Order.id o2
      ∧ Order.total_price o1 = Order.total_price o2
      ∧ Order.product_id o1 = Order.product_id o2
      ∧ Order.buyer_id o1 = Order.buyer_id o2
      ∧ Order.shipping_address_id o1 = Order.shipping_address_id o2
      ∧ Order.shipping_method o1 = Order.shipping_method o2.
Proof.
  simpl. intros Hok.
  apply confirm_order_created in Hok as (cu & product & address & sm & Hc).
  rewrite (confirm_order_writes env1 _ _ _ _ _ _ _ _ _ _ Hc). simpl.
  set (o1 := new_order env1 (db w) product_id shipping_address_id cu product
               sm).
  set (w1 := mkWorld (with_orders (db w) (orders (db w) ++ [o1])) (uploads w)).
  assert (Hc1 : can_confirm (db w1) session product_id shipping_address_id
                  meth form cu product address sm) by exact Hc.
  rewrite (confirm_order_writes env2 _ _ _ _ _ _ _ _ _ _ Hc1). simpl.
  split; [done|].
  exists o1, (new_order env2 (db w1) product_id shipping_address_id cu
                product sm).
  repeat split; try done.
  - by rewrite <- app_assoc.
  - simpl.
    assert (Hin : o1 ∈ (orders (db w) ++ [o1])%list).
    { apply elem_of_app. right. apply list_elem_of_here. }
    apply (next_id_above Order.id) in Hin. simpl in Hin. lia.
Qed.

Lemma confirm_order_twice_witness :
  let r1 := confirm_order (Demo.env 5) (Some 2) 1 1 POST Demo.by_courier
              Demo.w4 in
  let r2 := confirm_order (Demo.env 6) (Some 2) 1 1 POST Demo.by_courier
              r1.2 in
  r2.1 = order_created
  ∧ ∃ o1 o2,
      orders (db r1.2) = (orders (db Demo.w4) ++ [o1])%list
      ∧ orders (db r2.2) = (orders (db Demo.w4) ++ [o1; o2])%list
      ∧ Order.id o1 ≠ Order.id o2
      ∧ Order.total_price o1 = Order.total_price o2
      ∧ Order.product_id o1 = Order.product_id o2
      ∧ Order.buyer_id o1 = Order.buyer_id o2
      ∧ Order.shipping_address_id o1 = Order.shipping_address_id o2
      ∧ Order.shipping_method o1 = Order.shipping_method o2.
Proof.
  apply (confirm_order_twice (Demo.env 5) (Demo.env 6) (Some 2) 1 1 POST
           Demo.by_courier Demo.w4).
  reflexivity.
Defined.

(** ** Listing the orders of a buyer *)

Lemma insert_desc_perm o l : insert_desc o l ≡ₚ o :: l.
Proof.
  induction l as [|x r IH]; simpl; [done|].
  destruct (Order.order_date x <=? Order.order_date o); [done|].
  rewrite IH. apply Permutation_swap.
Qed.

Lemma order_by_date_desc_perm l : order_by_date_desc l ≡ₚ l.
Proof.
  induction l as [|o r IH]; simpl; [done|].
  by rewrite insert_desc_perm, IH.
Qed.

Lemma insert_desc_sorted o l :
  StronglySorted not_older l → StronglySorted not_older (insert_desc o l).
Proof.
  induction 1 as [|x r Hr IH Hx]; simpl.
  - by repeat constructor.
  - destruct (Order.order_date x <=? Order.order_date o) eqn:Hle.
    + apply Nat.leb_le in Hle.
      constructor; [by constructor|].
      constructor; [done|].
      eapply Forall_impl; [exact Hx|]. unfold not_older. intros; lia.
    + apply Nat.leb_gt in Hle.
      constructor; [done|].
      rewrite insert_desc_perm. constructor; [|done].
      unfold not_older. lia.
Qed.

Lemma order_by_date_desc_sorted l :
  StronglySorted not_older (order_by_date_desc l).
Proof.
  induction l as [|o r IH]; simpl; [constructor|].
  by apply insert_desc_sorted.
Qed.

(** In a sorted list an earlier position holds an order that is not older. *)
Lemma sorted_lookup l i j oi oj :
  StronglySorted not_older l →
  l !! i = Some oi → l !! j = Some oj → i < j → not_older oi oj.
Proof.
  intros Hs. revert i j.
  induction Hs as [|x r Hr IH Hx]; intros i j Hi Hj Hlt; [done|].
  destruct j as [|j]; [lia|]. simpl in Hj.
  destruct i as [|i]; simpl in Hi.
  - injection Hi as <-.
    rewrite Forall_forall in Hx. apply Hx.
    by eapply list_elem_of_lookup_2.
  - eapply IH; eauto. lia.
Qed.

(** C6. For a buyer, [my_orders] shows a list that holds exactly the orders
    of the table whose buyer is that user, each as often as the table has
    it, in descending order of date: of two orders shown, the one at the
    earlier position is not older, and an order with a later date stands
    before an order with an earlier one. *)
Theorem my_orders_lists session w cu :
  current_user session (db w) = Some cu →
  User.role cu = "buyer" →
  ∃ l,
    my_orders session w = (plain (render_template (my_orders_html l)), w)
    ∧ l ≡ₚ filter (fun o => Order.buyer_id o = User.id cu) (orders (db w))
    ∧ (∀ o, o ∈ l ↔ o ∈ orders (db w) ∧ Order.buyer_id o = User.id cu)
    ∧ (∀ i j oi oj,
         l !! i = Some oi → l !! j = Some oj → i < j →
         Order.order_date oj ≤ Order.order_date oi)
    ∧ (∀ i j oi oj,
         l !! i = Some oi → l !! j = Some oj →
         Order.order_date oj < Order.order_date oi → i < j).
Proof.
  intros Hcu Hrole. unfold my_orders. rewrite Hcu, Hrole. simpl.
  eexists. split; [reflexivity|].
  pose proof (order_by_date_desc_sorted
    (filter (fun o => Order.buyer_id o = User.id cu) (orders (db w)))) as Hs.
  pose proof (order_by_date_desc_perm
    (filter (fun o => Order.buyer_id o = User.id cu) (orders (db w)))) as Hp.
  split; [done|]. split; [|split].
  - intros o. rewrite Hp, list_elem_of_filter. tauto.
  - intros i j oi oj Hi Hj Hlt. by apply (sorted_lookup _ i j oi oj Hs).
  - intros i j oi oj Hi Hj Hlt.
    destruct (decide (i < j)) as [|Hge]; [done|]. exfalso.
    destruct (decide (i = j)) as [->|Hne].
    + rewrite Hi in Hj. injection Hj as ->. lia.
    + assert (Hji : j < i) by lia.
      pose proof (sorted_lookup _ j i oj oi Hs Hj Hi Hji) as Hno.
      unfold not_older in Hno. lia.
Qed.

Lemma my_orders_lists_witness :
  ∃ l,
    my_orders (Some 2) Demo.w7
    = (plain (render_template (my_orders_html l)), Demo.w7)
    ∧ l ≡ₚ filter (fun o => Order.buyer_id o = User.id Demo.bea_row)
             (orders (db Demo.w7))
    ∧ (∀ o, o ∈ l ↔
            o ∈ orders (db Demo.w7)
            ∧ Order.buyer_id o = User.id Demo.bea_row)
    ∧ (∀ i j oi oj,
         l !! i = Some oi → l !! j = Some oj → i < j →
         Order.order_date oj ≤ Order.order_date oi)
    ∧ (∀ i j oi oj,
         l !! i = Some oi → l !! j = Some oj →
         Order.order_date oj < Order.order_date oi → i < j).
Proof.
  apply (my_orders_lists (Some 2) Demo.w7 Demo.bea_row); reflexivity.
Defined.

(** The two orders of the run, the later one first. *)
Example my_orders_of_bea :
  (my_orders (Some 2) Demo.w7).1
  = plain (render_template (my_orders_html
      [Order.mk 2 1 2 9 "pending" "宅配" 1 (Finite 100); Demo.order_row])).
Proof. reflexivity. Qed.

(** ** Creating and updating products *)

Lemma get_update_row p' rows i :
  get Product.id i (update_row p' rows)
  = (fun r => if Product.id r =? Product.id p' then p' else r)
      <$> get Product.id i rows.
Proof.
  unfold get, update_row. induction rows as [|x l IH]; simpl; [done|].
  destruct (Product.id x =? Product.id p') eqn:He.
  - apply Nat.eqb_eq in He as He'.
    replace (Product.id p' =? i) with (Product.id x =? i)
      by (by rewrite He').
    destruct (Product.id x =? i); [|exact IH].
    simpl. by rewrite He.
  - destruct (Product.id x =? i); [|exact IH].
    simpl. by rewrite He.
Qed.

(** A form whose price is zero or below is not valid. *)
Lemma ProductForm_rejects_price form pr :
  pf_price form = Some pr → float_ge float_zero pr = true →
  ProductForm_validate form = false.
Proof.
  intros Hp Hle. unfold ProductForm_validate.
  rewrite Hp, (number_range_rejects _ Hle).
  by rewrite andb_false_r.
Qed.

(** What a valid product form holds. *)
Lemma ProductForm_valid_fields form :
  ProductForm_validate form = true →
  ∃ n de c pr,
    pf_name form = Some n ∧ pf_description form = Some de
    ∧ pf_condition form = Some c ∧ pf_price form = Some pr
    ∧ positive pr ∧ c ∈ condition_choices.
Proof.
  intros Hv. pose proof Hv as Hv'. unfold ProductForm_validate in Hv.
  repeat (apply andb_prop in Hv as [Hv ?]).
  destruct (pf_name form) as [n|]; [|done].
  destruct (pf_description form) as [de|]; [|done].
  destruct (pf_condition form) as [c|] eqn:Hc; [|done].
  destruct (pf_price form) as [pr|] eqn:Hpr; [|done].
  exists n, de, c, pr. repeat split; try done.
  - by eapply ProductForm_valid_price.
  - match goal with H : valid_choice _ _ = true |- _ =>
      unfold valid_choice in H; apply existsb_exists in H as [x [Hin He]] end.
    apply String.eqb_eq in He. subst x. by apply list_elem_of_In.
Qed.

Lemma update_product_updated env session product_id meth form w :
  (update_product env session product_id meth form w).1 = product_updated →
  ∃ cu product n de c pr,
    current_user session (db w) = Some cu
    ∧ get_product (db w) product_id = Some product
    ∧ seller_is_not (db w) product cu = false
    ∧ meth = POST
    ∧ pf_name form = Some n ∧ pf_description form = Some de
    ∧ pf_condition form = Some c ∧ pf_price form = Some pr
    ∧ positive pr
    ∧ (update_product env session product_id meth form w).2
      = mkWorld
          (with_products (db w)
             (update_row
                (Product.mk (Product.id product) n de (pf_specifications form)
                   c pr (updated_picture env form product (uploads w)).1
                   (Product.seller_id product))
                (products (db w))))
          (updated_picture env form product (uploads w)).2.
Proof.
  unfold update_product.
  destruct (current_user session (db w)) as [cu|] eqn:Hcu; [|done].
  destruct (get_product (db w) product_id) as [product|] eqn:Hp; [|done].
  destruct (seller_is_not (db w) product cu) eqn:Hown; [done|].
  destruct (validate_on_submit meth (ProductForm_validate form)) eqn:Hv;
    [|done].
  apply validate_on_submit_true in Hv as [-> Hv].
  destruct (ProductForm_valid_fields _ Hv)
    as (n & de & c & pr & Hn & Hde & Hc & Hpr & Hpos & _).
  rewrite Hn, Hde, Hc, Hpr.
  intros _. exists cu, product, n, de, c, pr.
  repeat split; try done.
  unfold updated_picture.
  destruct (pf_image form) as [f|]; [|done].
  destruct (has_file (Some f)); done.
Qed.

Lemma create_product_created env session meth form w :
  (create_product env session meth form w).1 = product_created →
  ∃ cu p,
    current_user session (db w) = Some cu
    ∧ User.role cu = "seller"
    ∧ products (db (create_product env session meth form w).2)
      = (products (db w) ++ [p])%list
    ∧ pf_price form = Some (Product.price p)
    ∧ Product.seller_id p = User.id cu
    ∧ positive (Product.price p).
Proof.
  unfold create_product.
  destruct (current_user session (db w)) as [cu|] eqn:Hcu; [|done].
  destruct (negb (String.eqb (User.role cu) "seller")) eqn:Hrole; [done|].
  destruct (validate_on_submit meth (ProductForm_validate form)) eqn:Hv;
    [|done].
  apply validate_on_submit_true in Hv as [-> Hv].
  destruct (ProductForm_valid_fields _ Hv)
    as (n & de & c & pr & Hn & Hde & Hc & Hpr & Hpos & _).
  rewrite Hn, Hde, Hc, Hpr.
  destruct (match pf_image form with Some _ => _ | None => _ end)
    as [picture_file up].
  intros _. eexists cu, _. simpl.
  repeat split; eauto using role_eqb_true.
Qed.

Lemma create_product_invalid env session meth form w :
  ProductForm_validate form = false →
  (create_product env session meth form w).2 = w
  ∧ (create_product env session meth form w).1 ≠ product_created.
Proof.
  intros Hv. unfold create_product, validate_on_submit.
  rewrite Hv, andb_false_r.
  destruct (current_user session (db w)) as [cu|]; [|done].
  destruct (negb (String.eqb (User.role cu) "seller")); done.
Qed.

Lemma update_product_invalid env session product_id meth form w :
  ProductForm_validate form = false →
  (update_product env session product_id meth form w).2 = w
  ∧ (update_product env session product_id meth form w).1 ≠ product_updated.
Proof.
  intros Hv. unfold update_product, validate_on_submit.
  rewrite Hv, andb_false_r.
  destruct (current_user session (db w)) as [cu|]; [|done].
  destruct (get_product (db w) product_id) as [product|]; [|done].
  destruct (seller_is_not (db w) product cu); done.
Qed.

(** C7. Every product of a reachable world has a price above zero; a
    product that [create_product] adds, and a product as [update_product]
    leaves it, has the price of the form, and that price is above zero; and
    a submission whose price is zero or below is not answered as created or
    updated and leaves the world, hence every stored price, as it was. *)
Theorem product_price_positive :
  (∀ w p, reachable w → p ∈ products (db w) → positive (Product.price p))
  ∧ (∀ env session meth form w,
       (create_product env session meth form w).1 = product_created →
       ∃ p, products (db (create_product env session meth form w).2)
            = (products (db w) ++ [p])%list
            ∧ pf_price form = Some (Product.price p)
            ∧ positive (Product.price p))
  ∧ (∀ env session product_id meth form w,
       (update_product env session product_id meth form w).1
         = product_updated →
       ∃ p, get_product
              (db (update_product env session product_id meth form w).2)
              product_id = Some p
            ∧ pf_price form = Some (Product.price p)
            ∧ positive (Product.price p))
  ∧ (∀ env session meth form w pr,
       pf_price form = Some pr → float_le pr float_zero = true →
       (create_product env session meth form w).2 = w
       ∧ (create_product env session meth form w).1 ≠ product_created)
  ∧ (∀ env session product_id meth form w pr,
       pf_price form = Some pr → float_le pr float_zero = true →
       (update_product env session product_id meth form w).2 = w
       ∧ (update_product env session product_id meth form w).1
         ≠ product_updated).
Proof.
  split; [|split; [|split; [|split]]].
  - intros w p Hw Hp. by apply (inv_prices _ (reachable_Inv _ Hw)).
  - intros env session meth form w Hok.
    apply create_product_created in Hok
      as (cu & p & _ & _ & Hps & Hpr & _ & Hpos).
    by exists p.
  - intros env session product_id meth form w Hok.
    apply update_product_updated in Hok
      as (cu & product & n & de & c & pr & _ & Hp & _ & _ & _ & _ & _ & Hpr
          & Hpos & ->).
    eexists. simpl. unfold get_product. simpl.
    rewrite get_update_row. fold (get_product (db w) product_id).
    rewrite Hp. simpl. rewrite Nat.eqb_refl. done.
  - intros env session meth form w pr Hpr Hle.
    apply create_product_invalid. by eapply ProductForm_rejects_price.
  - intros env session product_id meth form w pr Hpr Hle.
    apply update_product_invalid. by eapply ProductForm_rejects_price.
Qed.

Lemma product_price_positive_witness :
  positive (Product.price Demo.lamp_row)
  ∧ (∃ p, products (db (create_product (Demo.env 3) (Some 1) POST
                          (Demo.lamp 100 (Some Demo.lamp_jpg)) Demo.w2).2)
          = (products (db Demo.w2) ++ [p])%list
          ∧ pf_price (Demo.lamp 100 (Some Demo.lamp_jpg))
            = Some (Product.price p)
          ∧ positive (Product.price p))
  ∧ (∃ p, get_product
            (db (update_product (Demo.env 5) (Some 1) 1 POST
                   (Demo.lamp 80 None) Demo.w4).2) 1 = Some p
          ∧ pf_price (Demo.lamp 80 None) = Some (Product.price p)
          ∧ positive (Product.price p))
  ∧ ((create_product (Demo.env 3) (Some 1) POST (Demo.lamp 0 None)
        Demo.w2).2 = Demo.w2
     ∧ (create_product (Demo.env 3) (Some 1) POST (Demo.lamp 0 None)
          Demo.w2).1 ≠ product_created)
  ∧ ((update_product (Demo.env 5) (Some 1) 1 POST (Demo.lamp (-5) None)
        Demo.w4).2 = Demo.w4
     ∧ (update_product (Demo.env 5) (Some 1) 1 POST (Demo.lamp (-5) None)
          Demo.w4).1 ≠ product_updated).
Proof.
  destruct product_price_positive as (H1 & H2 & H3 & H4 & H5).
  split; [|split; [|split; [|split]]].
  - apply (H1 Demo.w5 Demo.lamp_row Demo_reachable).
    rewrite Demo_db. simpl. apply list_elem_of_here.
  - apply (H2 (Demo.env 3) (Some 1) POST (Demo.lamp 100 (Some Demo.lamp_jpg))
             Demo.w2). reflexivity.
  - apply (H3 (Demo.env 5) (Some 1) 1 POST (Demo.lamp 80 None) Demo.w4).
    reflexivity.
  - apply (H4 (Demo.env 3) (Some 1) POST (Demo.lamp 0 None) Demo.w2
             (Finite 0)); reflexivity.
  - apply (H5 (Demo.env 5) (Some 1) 1 POST (Demo.lamp (-5) None) Demo.w4
             (Finite (-5))); reflexivity.
Defined.

(** ** Deleting a product *)

Lemma get_delete_row p rows :
  get Product.id (Product.id p) (delete_row p rows) = None.
Proof.
  destruct (get Product.id (Product.id p) (delete_row p rows)) as [r|] eqn:H;
    [|done].
  apply get_Some in H as [He Hin].
  unfold delete_row in Hin. apply list_elem_of_filter in Hin as [Hne _]. done.
Qed.

Lemma owner_is_seller session d cu product :
  current_user session d = Some cu →
  Product.seller_id product = User.id cu →
  seller_is_not d product cu = false.
Proof.
  intros Hcu Hid. unfold seller_is_not, seller.
  rewrite Hid, (current_user_get _ _ _ Hcu). by rewrite Nat.eqb_refl.
Qed.

(** What the owner's request to delete does. *)
Lemma delete_product_by_owner session product_id w cu product :
  current_user session (db w) = Some cu →
  get_product (db w) product_id = Some product →
  Product.seller_id product = User.id cu →
  delete_product session product_id w
  = (if has_orders (db w) product then plain (abort 500)
     else product_deleted,
     mkWorld
       (if has_orders (db w) product then db w
        else with_products (db w) (delete_row product (products (db w))))
       (remove_picture product (uploads w))).
Proof.
  intros Hcu Hp Hid. unfold delete_product.
  rewrite Hcu, Hp, (owner_is_seller _ _ _ _ Hcu Hid).
  by destruct (has_orders (db w) product).
Qed.

(** The files [remove_picture] takes from the folder. *)
Lemma remove_picture_removed p up f :
  f ∈ up ∧ f ∉ remove_picture p up ↔
  f = Product.image_filename p
  ∧ Product.image_filename p ≠ default_jpg ∧ f ∈ up.
Proof.
  unfold remove_picture, remove_if_exists.
  destruct (String.eqb (Product.image_filename p) default_jpg) eqn:He; simpl.
  - apply String.eqb_eq in He. tauto.
  - apply String.eqb_neq in He.
    destruct (bool_decide (Product.image_filename p ∈ up)) eqn:Hin.
    + rewrite elem_of_difference, elem_of_singleton. split.
      * intros [Hf Hn].
        destruct (decide (f = Product.image_filename p)); tauto.
      * intros (-> & _ & Hf). tauto.
    + apply bool_decide_eq_false in Hin.
      split; [tauto|]. intros (-> & _ & Hf). done.
Qed.

Lemma remove_picture_other p up :
  Product.image_filename p ≠ default_jpg →
  remove_picture p up = up ∖ {[ Product.image_filename p ]}.
Proof.
  intros He. unfold remove_picture, remove_if_exists.
  apply String.eqb_neq in He. rewrite He. simpl.
  destruct (bool_decide (Product.image_filename p ∈ up)) eqn:Hin; [done|].
  apply bool_decide_eq_false in Hin. apply set_eq. intros f.
  rewrite elem_of_difference, elem_of_singleton. split; [|tauto].
  intros Hf. split; [done|]. congruence.
Qed.

Lemma remove_picture_default p up :
  Product.image_filename p = default_jpg → remove_picture p up = up.
Proof.
  intros He. unfold remove_picture.
  apply String.eqb_eq in He. by rewrite He.
Qed.

Lemma remove_picture_spares_default p up :
  default_jpg ∈ up → default_jpg ∈ remove_picture p up.
Proof.
  intros Hd.
  destruct (decide (Product.image_filename p = default_jpg)) as [He|He].
  - by rewrite remove_picture_default.
  - rewrite remove_picture_other by done. set_solver.
Qed.

(** C8. When the seller of a product asks to delete it, the upload folder
    loses the picture of the product exactly when its name is not the
    placeholder's: a file is in the folder before and not after if and only
    if it is that picture and the picture is not the placeholder; with the
    placeholder as picture the folder is as it was; in both cases a
    placeholder that was in the folder still is; and when no order refers
    to the product the request is answered as deleted and the row is
    gone. *)
Theorem delete_product_picture session product_id w cu product :
  current_user session (db w) = Some cu →
  get_product (db w) product_id = Some product →
  Product.seller_id product = User.id cu →
  let r := delete_product session product_id w in
  (∀ f, f ∈ uploads w ∧ f ∉ uploads r.2 ↔
        f = Product.image_filename product
        ∧ Product.image_filename product ≠ default_jpg
        ∧ f ∈ uploads w)
  ∧ (Product.image_filename product ≠ default_jpg →
     uploads r.2 = uploads w ∖ {[ Product.image_filename product ]})
  ∧ (Product.image_filename product = default_jpg →
     uploads r.2 = uploads w)
  ∧ (default_jpg ∈ uploads w → default_jpg ∈ uploads r.2)
  ∧ (has_orders (db w) product = false →
     r.1 = product_deleted ∧ get_product (db r.2) product_id = None).
Proof.
  intros Hcu Hp Hid. simpl.
  rewrite (delete_product_by_owner _ _ _ _ _ Hcu Hp Hid). simpl.
  split; [|split; [|split; [|split]]].
  - intros f. apply remove_picture_removed.
  - apply remove_picture_other.
  - apply remove_picture_default.
  - apply remove_picture_spares_default.
  - intros ->. split; [done|]. unfold get_product. simpl.
    apply get_Some in Hp as [<- _]. apply get_delete_row.
Qed.

Lemma delete_product_picture_witness :
  let r := delete_product (Some 1) 1 Demo.w4 in
  (∀ f, f ∈ uploads Demo.w4 ∧ f ∉ uploads r.2 ↔
        f = Product.image_filename Demo.lamp_row
        ∧ Product.image_filename Demo.lamp_row ≠ default_jpg
        ∧ f ∈ uploads Demo.w4)
  ∧ (Product.image_filename Demo.lamp_row ≠ default_jpg →
     uploads r.2
     = uploads Demo.w4 ∖ {[ Product.image_filename Demo.lamp_row ]})
  ∧ (Product.image_filename Demo.lamp_row = default_jpg →
     uploads r.2 = uploads Demo.w4)
  ∧ (default_jpg ∈ uploads Demo.w4 → default_jpg ∈ uploads r.2)
  ∧ (has_orders (db Demo.w4) Demo.lamp_row = false →
     r.1 = product_deleted ∧ get_product (db r.2) 1 = None).
Proof.
  apply (delete_product_picture (Some 1) 1 Demo.w4 Demo.sam_row
           Demo.lamp_row); reflexivity.
Defined.

(** The run: deleting the lamp removes its picture and keeps the
    placeholder; deleting a product listed without a picture removes
    nothing. *)
Example delete_lamp :
  elements (uploads Demo.w4)
  = ["9f1c2b7a4d5e4c0f8a6b3e2d1c0f9e8d.JPG"; default_jpg]
  ∧ elements (uploads (delete_product (Some 1) 1 Demo.w4).2) = [default_jpg].
Proof. split; vm_compute; reflexivity. Qed.

Example delete_plain_product :
  let w := (create_product (Demo.env 3) (Some 1) POST (Demo.lamp 100 None)
              Demo.w2).2 in
  Product.image_filename <$> get_product (db w) 1 = Some default_jpg
  ∧ delete_product (Some 1) 1 w = (product_deleted, Demo.w2).
Proof. split; vm_compute; reflexivity. Qed.

(** A product with an order: the picture is removed, the commit fails. *)
Example delete_ordered_product :
  (delete_product (Some 1) 1 Demo.w5).1 = plain (abort 500)
  ∧ db (delete_product (Some 1) 1 Demo.w5).2 = db Demo.w5
  ∧ elements (uploads (delete_product (Some 1) 1 Demo.w5).2) = [default_jpg].
Proof. repeat split; vm_compute; reflexivity. Qed.

(** ** Registering a name that is taken *)

Lemma first_by_username_taken d un u :
  u ∈ users d → User.username u = un →
  is_Some (first_by_username d (Some un)).
Proof.
  intros Hin He. simpl.
  destruct (find (fun u => String.eqb (User.username u) un) (users d))
    as [x|] eqn:Hf; [by eexists|].
  apply list_elem_of_In in Hin.
  eapply find_none in Hf; [|exact Hin]. simpl in Hf.
  apply String.eqb_neq in Hf. done.
Qed.

(** C9. A registration with a user name that some user has leaves the
    world as it was, so no user is added and no user is changed; sent by
    POST without a session, it is answered by the flash that the name
    exists and the redirect to the registration page. *)
Theorem register_taken_username env session meth form w un u :
  rf_username form = Some un →
  u ∈ users (db w) →
  User.username u = un →
  (register env session meth form w).2 = w
  ∧ (register env session meth form w).1 ≠
    flash_redirect
      "Your account has been created! You are now able to log in."
      "success" ep_login
  ∧ (current_user session (db w) = None → meth = POST →
     (register env session meth form w).1 = username_exists).
Proof.
  intros Hun Hin He.
  destruct (first_by_username_taken _ _ _ Hin He) as [x Hx].
  unfold register. rewrite Hun, Hx.
  destruct (current_user session (db w)); [done|].
  destruct meth; done.
Qed.

Lemma register_taken_username_witness :
  let form := mkRegisterForm (Some "bea") (Some "other@example.org")
                (Some "x") (Some "seller") in
  (register (Demo.env 8) None POST form Demo.w5).2 = Demo.w5
  ∧ (register (Demo.env 8) None POST form Demo.w5).1 = username_exists.
Proof.
  simpl.
  destruct (register_taken_username (Demo.env 8) None POST
              (mkRegisterForm (Some "bea") (Some "other@example.org")
                 (Some "x") (Some "seller")) Demo.w5 "bea" Demo.bea_row)
    as (Hw & _ & Hr).
  - reflexivity.
  - rewrite Demo_db. simpl. apply list_elem_of_further, list_elem_of_here.
  - reflexivity.
  - split; [exact Hw|]. apply Hr; reflexivity.
Defined.

(** ** What an update leaves alone *)

(** C10. Whenever [update_product] answers that the product is updated,
    the row of that product keeps its id and its seller, has the name,
    description, specifications, condition and price of the form, and keeps
    its picture name when the form carries no file (then the upload folder
    is unchanged too); with a file the picture name is the one
    [save_picture] drew.  Every other product row, and the users, addresses
    and orders, are as they were. *)
Theorem update_product_frame env session product_id meth form w :
  (update_product env session product_id meth form w).1 = product_updated →
  let w' := (update_product env session product_id meth form w).2 in
  ∃ product product',
    get_product (db w) product_id = Some product
    ∧ get_product (db w') product_id = Some product'
    ∧ Product.id product' = Product.id product
    ∧ Product.seller_id product' = Product.seller_id product
    ∧ (has_file (pf_image form) = false →
       Product.image_filename product' = Product.image_filename product
       ∧ uploads w' = uploads w)
    ∧ (∀ f, pf_image form = Some f → has_file (pf_image form) = true →
       Product.image_filename product'
       = (uuid_hex env ++ splitext_ext (filename f))%string)
    ∧ pf_name form = Some (Product.name product')
    ∧ pf_description form = Some (Product.description product')
    ∧ pf_specifications form = Product.specifications product'
    ∧ pf_condition form = Some (Product.condition product')
    ∧ pf_price form = Some (Product.price product')
    ∧ products (db w') = update_row product' (products (db w))
    ∧ (∀ q, q ∈ products (db w) → Product.id q ≠ product_id →
       q ∈ products (db w'))
    ∧ users (db w') = users (db w)
    ∧ shipping_addresses (db w') = shipping_addresses (db w)
    ∧ orders (db w') = orders (db w).
Proof.
  intros Hok. simpl.
  apply update_product_updated in Hok
    as (cu & product & n & de & c & pr & _ & Hp & _ & _ & Hn & Hde & Hc & Hpr
        & _ & ->).
  pose proof (get_Some _ _ _ _ Hp) as [Hid _].
  eexists product, _. simpl.
  split; [done|]. split.
  { unfold get_product. simpl. rewrite get_update_row.
    fold (get_product (db w) product_id). rewrite Hp. simpl.
    by rewrite Nat.eqb_refl. }
  assert (Hnone : has_file (pf_image form) = false →
            updated_picture env form product (uploads w)
            = (Product.image_filename product, uploads w)).
  { unfold updated_picture. destruct (pf_image form) as [f|]; [|done].
    by intros ->. }
  split; [done|]. split; [done|].
  split; [intros Hno; by rewrite (Hnone Hno)|].
  repeat split; try done.
  - intros f Hf Hhas. unfold updated_picture. rewrite Hf in *.
    by rewrite Hhas.
  - intros q Hq Hne. unfold update_row. apply list_elem_of_fmap.
    exists q. split; [|done]. simpl.
    rewrite Hid. apply Nat.eqb_neq in Hne. by rewrite Hne.
Qed.

Lemma update_product_frame_witness :
  let form := Demo.lamp 80 None in
  let w' := (update_product (Demo.env 5) (Some 1) 1 POST form Demo.w4).2 in
  ∃ product product',
    get_product (db Demo.w4) 1 = Some product
    ∧ get_product (db w') 1 = Some product'
    ∧ Product.id product' = Product.id product
    ∧ Product.seller_id product' = Product.seller_id product
    ∧ (has_file (pf_image form) = false →
       Product.image_filename product' = Product.image_filename product
       ∧ uploads w' = uploads Demo.w4)
    ∧ (∀ f, pf_image form = Some f → has_file (pf_image form) = true →
       Product.image_filename product'
       = (uuid_hex (Demo.env 5) ++ splitext_ext (filename f))%string)
    ∧ pf_name form = Some (Product.name product')
    ∧ pf_description form = Some (Product.description product')
    ∧ pf_specifications form = Product.specifications product'
    ∧ pf_condition form = Some (Product.condition product')
    ∧ pf_price form = Some (Product.price product')
    ∧ products (db w') = update_row product' (products (db Demo.w4))
    ∧ (∀ q, q ∈ products (db Demo.w4) → Product.id q ≠ 1 →
       q ∈ products (db w'))
    ∧ users (db w') = users (db Demo.w4)
    ∧ shipping_addresses (db w') = shipping_addresses (db Demo.w4)
    ∧ orders (db w') = orders (db Demo.w4).
Proof.
  apply (update_product_frame (Demo.env 5) (Some 1) 1 POST
           (Demo.lamp 80 None) Demo.w4).
  reflexivity.
Defined.

(** The run: the seller lowers the price and sends no picture. *)
Example update_lamp_price :
  get_product
    (db (update_product (Demo.env 5) (Some 1) 1 POST (Demo.lamp 80 None)
           Demo.w4).2) 1
  = Some (Product.mk 1 "Lamp" "A desk lamp" None "全新" (Finite 80)
            "9f1c2b7a4d5e4c0f8a6b3e2d1c0f9e8d.JPG" 1).
Proof. reflexivity. Qed.

(** ** Every request commits one of the listed writes *)

Lemma ProductForm_valid_all form :
  ProductForm_validate form = true →
  ∃ n de c pr,
    pf_name form = Some n ∧ pf_description form = Some de
    ∧ pf_condition form = Some c ∧ pf_price form = Some pr
    ∧ data_required (Some n) = true ∧ data_required (Some de) = true
    ∧ c ∈ condition_choices ∧ positive pr.
Proof.
  intros Hv.
  destruct (ProductForm_valid_fields _ Hv)
    as (n & de & c & pr & Hn & Hde & Hc & Hpr & Hpos & Hin).
  exists n, de, c, pr. unfold ProductForm_validate in Hv.
  rewrite Hn, Hde in Hv.
  repeat (apply andb_prop in Hv as [Hv ?]). by repeat split.
Qed.

Lemma ShippingAddressForm_valid_all form :
  ShippingAddressForm_validate form = true →
  ∃ rn ph l1 ci st zc co,
    sf_recipient_name form = Some rn ∧ sf_phone_number form = Some ph
    ∧ sf_address_line1 form = Some l1 ∧ sf_city form = Some ci
    ∧ sf_state form = Some st ∧ sf_zip_code form = Some zc
    ∧ sf_country form = Some co
    ∧ data_required (Some rn) = true ∧ data_required (Some ph) = true
    ∧ data_required (Some l1) = true ∧ data_required (Some ci) = true
    ∧ data_required (Some st) = true ∧ data_required (Some zc) = true
    ∧ data_required (Some co) = true.
Proof.
  unfold ShippingAddressForm_validate. intros Hv.
  repeat (apply andb_prop in Hv as [Hv ?]).
  destruct (sf_recipient_name form) as [rn|]; [|done].
  destruct (sf_phone_number form) as [ph|]; [|done].
  destruct (sf_address_line1 form) as [l1|]; [|done].
  destruct (sf_city form) as [ci|]; [|done].
  destruct (sf_state form) as [st|]; [|done].
  destruct (sf_zip_code form) as [zc|]; [|done].
  destruct (sf_country form) as [co|]; [|done].
  exists rn, ph, l1, ci, st, zc, co. by repeat split.
Qed.

Lemma OrderForm_valid_all form :
  OrderForm_validate form = true →
  ∃ sm, of_shipping_method form = Some sm ∧ sm ∈ shipping_method_choices.
Proof.
  unfold OrderForm_validate. intros Hv.
  repeat (apply andb_prop in Hv as [Hv ?]).
  destruct (of_shipping_method form) as [sm|]; [|done].
  exists sm. split; [done|].
  match goal with H : valid_choice _ _ = true |- _ =>
    unfold valid_choice in H; apply existsb_exists in H as [x [Hin He]] end.
  apply String.eqb_eq in He. subst x. by apply list_elem_of_In.
Qed.

(** The seller of a product, when [product.seller != current_user] is
    false, is the current user. *)
Lemma seller_is_current d session p cu :
  current_user session d = Some cu →
  seller_is_not d p cu = false →
  Product.seller_id p = User.id cu.
Proof.
  intros Hcu Hs. apply seller_is_not_false in Hs as [s [Hg He]].
  unfold seller in Hg. apply get_Some in Hg as [Hid _]. congruence.
Qed.

Lemma create_product_commit env session meth form w :
  commit w (create_product env session meth form w).2.
Proof.
  unfold create_product.
  destruct (current_user session (db w)) as [cu|] eqn:Hcu;
    [|apply commit_nothing].
  destruct (negb (String.eqb (User.role cu) "seller")) eqn:Hrole;
    [apply commit_nothing|].
  destruct (validate_on_submit meth (ProductForm_validate form)) eqn:Hv;
    [|apply commit_nothing].
  apply validate_on_submit_true in Hv as [_ Hv].
  destruct (ProductForm_valid_all _ Hv)
    as (n & de & c & pr & Hn & Hde & Hc & Hpr & Hvn & Hvd & Hin & Hpos).
  rewrite Hn, Hde, Hc, Hpr.
  destruct (pf_image form) as [f|]; [destruct (has_file (Some f))|]; simpl;
    eapply commit_product;
    eauto using current_user_get, role_eqb_true.
Qed.

Lemma register_commit env session meth form w :
  commit w (register env session meth form w).2.
Proof.
  unfold register.
  destruct (current_user session (db w)); [apply commit_nothing|].
  destruct meth; try apply commit_nothing.
  destruct (first_by_username (db w) (rf_username form)) eqn:Hu;
    [apply commit_nothing|].
  destruct (first_by_email (db w) (rf_email form)) eqn:He;
    [apply commit_nothing|].
  destruct (rf_username form) as [un|]; [|apply commit_nothing].
  destruct (rf_email form) as [em|]; [|apply commit_nothing].
  destruct (rf_password form) as [pw|]; [|apply commit_nothing].
  simpl. by apply commit_user.
Qed.

Lemma update_product_commit env session product_id meth form w :
  commit w (update_product env session product_id meth form w).2.
Proof.
  unfold update_product.
  destruct (current_user session (db w)) as [cu|] eqn:Hcu;
    [|apply commit_nothing].
  destruct (get_product (db w) product_id) as [product|] eqn:Hp;
    [|apply commit_nothing].
  destruct (seller_is_not (db w) product cu) eqn:Hown;
    [apply commit_nothing|].
  destruct (validate_on_submit meth (ProductForm_validate form)) eqn:Hv;
    [|apply commit_nothing].
  apply validate_on_submit_true in Hv as [_ Hv].
  destruct (ProductForm_valid_all _ Hv)
    as (n & de & c & pr & Hn & Hde & Hc & Hpr & Hvn & Hvd & Hin & Hpos).
  rewrite Hn, Hde, Hc, Hpr.
  apply get_Some in Hp as [_ Hp].
  destruct (pf_image form) as [f|]; [destruct (has_file (Some f))|]; simpl;
    eapply commit_update;
    eauto using current_user_get, seller_is_current.
Qed.

Lemma delete_product_commit session product_id w :
  commit w (delete_product session product_id w).2.
Proof.
  unfold delete_product.
  destruct (current_user session (db w)) as [cu|] eqn:Hcu;
    [|apply commit_nothing].
  destruct (get_product (db w) product_id) as [product|] eqn:Hp;
    [|apply commit_nothing].
  destruct (seller_is_not (db w) product cu) eqn:Hown;
    [apply commit_nothing|].
  apply get_Some in Hp as [_ Hp].
  destruct (has_orders (db w) product) eqn:Ho; simpl.
  - eapply commit_picture; eauto using current_user_get, seller_is_current.
  - eapply commit_delete; eauto using current_user_get, seller_is_current.
Qed.

Lemma shipping_address_commit session product_id meth form w :
  commit w (shipping_address session product_id meth form w).2.
Proof.
  unfold shipping_address.
  destruct (current_user session (db w)) as [cu|] eqn:Hcu;
    [|apply commit_nothing].
  destruct (get_product (db w) product_id) as [product|] eqn:Hp;
    [|apply commit_nothing].
  destruct (may_not_buy (db w) cu product) as [[|]|] eqn:Hbuy;
    try apply commit_nothing.
  apply may_not_buy_false in Hbuy as [Hrole _].
  destruct (validate_on_submit meth (ShippingAddressForm_validate form))
    eqn:Hv; [|apply commit_nothing].
  apply validate_on_submit_true in Hv as [_ Hv].
  destruct (ShippingAddressForm_valid_all _ Hv)
    as (rn & ph & l1 & ci & st & zc & co & H1 & H2 & H3 & H4 & H5 & H6 & H7
        & V1 & V2 & V3 & V4 & V5 & V6 & V7).
  rewrite H1, H2, H3, H4, H5, H6, H7. simpl.
  eapply commit_address; eauto using current_user_get.
Qed.

Lemma confirm_order_commit env session product_id shipping_address_id meth
    form w :
  commit w
    (confirm_order env session product_id shipping_address_id meth form w).2.
Proof.
  unfold confirm_order.
  destruct (current_user session (db w)) as [cu|] eqn:Hcu;
    [|apply commit_nothing].
  destruct (get_product (db w) product_id) as [product|] eqn:Hp;
    [|apply commit_nothing].
  destruct (get_shipping_address (db w) shipping_address_id)
    as [address|] eqn:Ha; [|apply commit_nothing].
  destruct (may_not_buy (db w) cu product) as [[|]|] eqn:Hbuy;
    try apply commit_nothing.
  apply may_not_buy_false in Hbuy as [Hrole _].
  destruct (negb (ShippingAddress.user_id address =? User.id cu)) eqn:Hown;
    [apply commit_nothing|].
  destruct (validate_on_submit meth (OrderForm_validate form)) eqn:Hv;
    [|apply commit_nothing].
  apply validate_on_submit_true in Hv as [_ Hv].
  destruct (OrderForm_valid_all _ Hv) as (sm & Hsm & Hin).
  rewrite Hsm. simpl.
  pose proof (get_Some _ _ _ _ Hp) as [Hpid _].
  pose proof (get_Some _ _ _ _ Ha) as [Haid _].
  eapply commit_order; eauto using current_user_get.
  - unfold get_product. by rewrite Hpid.
  - unfold get_shipping_address. by rewrite Haid.
  - apply Nat.eqb_eq. by destruct (_ =? _).
Qed.

Lemma handle_commit env session r w : commit w (handle env session r w).2.
Proof.
  destruct r; simpl;
    auto using create_product_commit, register_commit,
      update_product_commit, delete_product_commit,
      shipping_address_commit, confirm_order_commit;
    unfold home, product_detail, seller_products, create_order,
      select_shipping_address, my_orders;
    repeat case_match; apply commit_nothing.
Qed.

(** ** Keys *)

Lemma map_id_update_row p' rows :
  map Product.id (update_row p' rows) = map Product.id rows.
Proof.
  unfold update_row. induction rows as [|x l IH]; simpl; [done|].
  rewrite IH. destruct (Product.id x =? Product.id p') eqn:He; [|done].
  apply Nat.eqb_eq in He. by rewrite He.
Qed.

Lemma NoDup_delete_row p rows :
  NoDup (map Product.id rows) → NoDup (map Product.id (delete_row p rows)).
Proof.
  unfold delete_row. induction rows as [|x l IH]; simpl; [done|].
  rewrite NoDup_cons. intros [Hx Hl]. rewrite filter_cons.
  destruct (decide (Product.id x ≠ Product.id p)); [|by apply IH].
  simpl. apply NoDup_cons. split; [|by apply IH].
  intros Hin. apply Hx. apply list_elem_of_fmap in Hin as [y [-> Hy]].
  apply list_elem_of_filter in Hy as [_ Hy].
  apply list_elem_of_fmap. by exists y.
Qed.

Lemma first_by_username_None d un :
  first_by_username d (Some un) = None → un ∉ map User.username (users d).
Proof.
  simpl. intros Hf Hin. apply list_elem_of_fmap in Hin as [u [-> Hu]].
  apply list_elem_of_In in Hu. eapply find_none in Hf; [|exact Hu].
  simpl in Hf. by rewrite String.eqb_refl in Hf.
Qed.

Lemma first_by_email_None d em :
  first_by_email d (Some em) = None → em ∉ map User.email (users d).
Proof.
  simpl. intros Hf Hin. apply list_elem_of_fmap in Hin as [u [-> Hu]].
  apply list_elem_of_In in Hu. eapply find_none in Hf; [|exact Hu].
  simpl in Hf. by rewrite String.eqb_refl in Hf.
Qed.

Lemma NoDup_snoc_fresh {A B} (f : A → B) (l : list A) (x : A) :
  NoDup (map f l) → f x ∉ map f l → NoDup (map f (l ++ [x])).
Proof.
  intros Hl Hx. rewrite map_app. simpl. apply NoDup_app.
  split; [done|]. split; [|apply NoDup_singleton].
  intros y Hy Hy'. apply list_elem_of_singleton in Hy'. by subst y.
Qed.

Lemma commit_Keys w w' : commit w w' → Keys (db w) → Keys (db w').
Proof.
  intros Hc [Hu Hp Ha Ho Hn He].
  destruct Hc; split; simpl; try done.
  - by apply next_id_NoDup.
  - apply NoDup_snoc_fresh; [done|]. by apply first_by_username_None.
  - apply NoDup_snoc_fresh; [done|]. by apply first_by_email_None.
  - by apply next_id_NoDup.
  - by rewrite map_id_update_row.
  - by apply NoDup_delete_row.
  - by apply next_id_NoDup.
  - by apply next_id_NoDup.
Qed.

Lemma Keys_empty : Keys empty_db.
Proof. split; simpl; apply NoDup_nil_2. Qed.

Lemma reachable_Keys w : reachable w → Keys (db w).
Proof.
  induction 1 as [up|w env session r _ IH]; simpl.
  - apply Keys_empty.
  - eapply commit_Keys; [apply handle_commit|done].
Qed.

Lemma Demo_w7_reachable : reachable Demo.w7.
Proof. repeat apply reachable_step. apply reachable_start. Qed.

(** X1. In every reachable world no two users have the same name and no
    two users have the same email. *)
Theorem usernames_and_emails_unique w :
  reachable w →
  NoDup (map User.username (users (db w)))
  ∧ NoDup (map User.email (users (db w))).
Proof.
  intros Hw. destruct (reachable_Keys _ Hw). by split.
Qed.

Lemma usernames_and_emails_unique_witness :
  NoDup (map User.username (users (db Demo.w7)))
  ∧ NoDup (map User.email (users (db Demo.w7))).
Proof. apply (usernames_and_emails_unique Demo.w7 Demo_w7_reachable). Defined.

(** X2. In every reachable world the ids of the rows of each table are
    pairwise different, so that a query by id has one row to find. *)
Theorem ids_unique w :
  reachable w →
  NoDup (map User.id (users (db w)))
  ∧ NoDup (map Product.id (products (db w)))
  ∧ NoDup (map ShippingAddress.id (shipping_addresses (db w)))
  ∧ NoDup (map Order.id (orders (db w))).
Proof.
  intros Hw. destruct (reachable_Keys _ Hw). by repeat split.
Qed.

Lemma ids_unique_witness :
  NoDup (map User.id (users (db Demo.w7)))
  ∧ NoDup (map Product.id (products (db Demo.w7)))
  ∧ NoDup (map ShippingAddress.id (shipping_addresses (db Demo.w7)))
  ∧ NoDup (map Order.id (orders (db Demo.w7))).
Proof. apply (ids_unique Demo.w7 Demo_w7_reachable). Defined.

(** ** References *)

Lemma get_delete_row_ne p rows i :
  i ≠ Product.id p →
  get Product.id i (delete_row p rows) = get Product.id i rows.
Proof.
  intros Hne. unfold get, delete_row.
  induction rows as [|x l IH]; simpl; [done|]. rewrite filter_cons.
  destruct (decide (Product.id x ≠ Product.id p)) as [Hx|Hx]; simpl.
  - by rewrite IH.
  - rewrite IH. destruct (Product.id x =? i) eqn:He; [|done].
    apply Nat.eqb_eq in He. exfalso. apply Hx. intros Heq. congruence.
Qed.

Lemma has_orders_false d p o :
  has_orders d p = false → o ∈ orders d →
  Order.product_id o ≠ Product.id p.
Proof.
  unfold has_orders. intros Hf Ho%list_elem_of_In He.
  assert (existsb (fun o => Order.product_id o =? Product.id p) (orders d)
          = true) as Ht; [|congruence].
  apply existsb_exists. exists o. split; [done|]. by apply Nat.eqb_eq.
Qed.

Lemma commit_References w w' :
  commit w w' → References (db w) → References (db w').
Proof.
  intros Hc [Hs Hw Hb Ha Hp].
  destruct Hc as
    [ | un em hash role Hun Hem
      | cu n de sp c pr picture up Hcu Hrole _ _ _ _ _
      | cu product n de sp c pr picture up Hcu Hin Hsel _ _ _ _ _
      | cu product Hcu Hin Hsel Hno
      | cu product Hcu Hin Hsel
      | cu rn ph l1 l2 ci st zc co Hcu Hrole _ _ _ _ _ _ _
      | cu product address t sm Hcu Hrole Hgp Hga Hown _ ].
  - by split.
  - split; simpl; try done.
    + intros p Hin. destruct (Hs p Hin) as [u [Hg Hr]].
      exists u. split; [|done]. by apply get_app_Some.
    + intros a Hin. destruct (Hw a Hin) as [u [Hg Hr]].
      exists u. split; [|done]. by apply get_app_Some.
    + intros o Hin. destruct (Hb o Hin) as [u [Hg Hr]].
      exists u. split; [|done]. by apply get_app_Some.
  - split; simpl; try done.
    + intros q [Hq| ->%list_elem_of_singleton]%elem_of_app; [by apply Hs|].
      by exists cu.
    + intros o Hin. destruct (Hp o Hin) as [q Hq].
      exists q. by apply get_app_Some.
  - split; simpl; try done.
    + intros q [->|Hq]%elem_of_update_row; [|by apply Hs]. simpl.
      by apply Hs.
    + intros o Ho. destruct (Hp o Ho) as [q Hq].
      unfold get_product in *. simpl. rewrite get_update_row, Hq.
      by eexists.
  - split; simpl; try done.
    + intros q Hq%elem_of_delete_row. by apply Hs.
    + intros o Ho. destruct (Hp o Ho) as [q Hq].
      exists q. unfold get_product in *. simpl.
      rewrite get_delete_row_ne; [done|]. by eapply has_orders_false.
  - by split.
  - split; simpl; try done.
    + intros a [Hin| ->%list_elem_of_singleton]%elem_of_app; [by apply Hw|].
      by exists cu.
    + intros o Hin. destruct (Ha o Hin) as [a [Hg Hr]].
      exists a. split; [|done]. by apply get_app_Some.
  - split; simpl; try done.
    + intros o [Hin| ->%list_elem_of_singleton]%elem_of_app; [by apply Hb|].
      by exists cu.
    + intros o [Hin| ->%list_elem_of_singleton]%elem_of_app; [by apply Ha|].
      by exists address.
    + intros o [Hin| ->%list_elem_of_singleton]%elem_of_app; [by apply Hp|].
      by exists product.
Qed.

Lemma References_empty : References empty_db.
Proof. split; simpl; intros ? H; by apply not_elem_of_nil in H. Qed.

Lemma reachable_References w : reachable w → References (db w).
Proof.
  induction 1 as [up|w env session r _ IH]; simpl.
  - apply References_empty.
  - eapply commit_References; [apply handle_commit|done].
Qed.

(** X3. In every reachable world the seller of each product is a user of
    role seller, and the owner of each address is a user of role buyer. *)
Theorem sellers_and_owners_exist w :
  reachable w →
  (∀ p, p ∈ products (db w) →
     ∃ u, get_user (db w) (Product.seller_id p) = Some u
          ∧ User.role u = "seller")
  ∧ (∀ a, a ∈ shipping_addresses (db w) →
       ∃ u, get_user (db w) (ShippingAddress.user_id a) = Some u
            ∧ User.role u = "buyer").
Proof.
  intros Hw. destruct (reachable_References _ Hw). by split.
Qed.

Lemma sellers_and_owners_exist_witness :
  (∀ p, p ∈ products (db Demo.w7) →
     ∃ u, get_user (db Demo.w7) (Product.seller_id p) = Some u
          ∧ User.role u = "seller")
  ∧ (∀ a, a ∈ shipping_addresses (db Demo.w7) →
       ∃ u, get_user (db Demo.w7) (ShippingAddress.user_id a) = Some u
            ∧ User.role u = "buyer").
Proof. apply (sellers_and_owners_exist Demo.w7 Demo_w7_reachable). Defined.

(** X4. In every reachable world the buyer of each order is a user of role
    buyer and the product of each order is a row of the product table: a
    product that has orders is never deleted. *)
Theorem orders_refer_to_rows w :
  reachable w →
  ∀ o, o ∈ orders (db w) →
    (∃ u, get_user (db w) (Order.buyer_id o) = Some u
          ∧ User.role u = "buyer")
    ∧ (∃ p, get_product (db w) (Order.product_id o) = Some p).
Proof.
  intros Hw o Ho. destruct (reachable_References _ Hw). split; auto.
Qed.

Lemma orders_refer_to_rows_witness :
  (∃ u, get_user (db Demo.w7) (Order.buyer_id Demo.order_row) = Some u
        ∧ User.role u = "buyer")
  ∧ (∃ p, get_product (db Demo.w7) (Order.product_id Demo.order_row)
          = Some p).
Proof.
  apply (orders_refer_to_rows Demo.w7 Demo_w7_reachable Demo.order_row).
  vm_compute. apply list_elem_of_here.
Defined.

(** ** The rows are made of validated data *)

Lemma commit_valid w w' :
  commit w w' →
  (∀ p, p ∈ products (db w) → valid_product p) →
  (∀ a, a ∈ shipping_addresses (db w) → valid_address a) →
  (∀ o, o ∈ orders (db w) → valid_order o) →
  (∀ p, p ∈ products (db w') → valid_product p)
  ∧ (∀ a, a ∈ shipping_addresses (db w') → valid_address a)
  ∧ (∀ o, o ∈ orders (db w') → valid_order o).
Proof.
  intros Hc Hp Ha Ho.
  destruct Hc as
    [ | un em hash role Hun Hem
      | cu n de sp c pr picture up Hcu Hrole Vn Vd Vc Vp _
      | cu product n de sp c pr picture up Hcu Hin Hsel Vn Vd Vc Vp _
      | cu product Hcu Hin Hsel Hno
      | cu product Hcu Hin Hsel
      | cu rn ph l1 l2 ci st zc co Hcu Hrole V1 V2 V3 V4 V5 V6 V7
      | cu product address t sm Hcu Hrole Hgp Hga Hown Vm ];
    simpl; try done.
  - split; [|done].
    intros q [Hq| ->%list_elem_of_singleton]%elem_of_app; [by apply Hp|].
    by repeat split.
  - split; [|done].
    intros q [->|Hq]%elem_of_update_row; [|by apply Hp]. by repeat split.
  - split; [|done]. intros q Hq%elem_of_delete_row. by apply Hp.
  - split; [done|]. split; [|done].
    intros a [Hin| ->%list_elem_of_singleton]%elem_of_app; [by apply Ha|].
    by repeat split.
  - split; [done|]. split; [done|].
    intros o [Hin| ->%list_elem_of_singleton]%elem_of_app; [by apply Ho|].
    apply get_Some in Hgp as [_ Hgp]. destruct (Hp _ Hgp) as (_ & _ & _ & Hpos).
    by repeat split.
Qed.

(** X5. In every reachable world each product has a name and a description
    that are not blank, one of the five conditions and a price above zero;
    each address has its seven required fields not blank; and each order
    has the status pending, one of the three shipping methods and a total
    price above zero. *)
Theorem rows_are_valid w :
  reachable w →
  (∀ p, p ∈ products (db w) → valid_product p)
  ∧ (∀ a, a ∈ shipping_addresses (db w) → valid_address a)
  ∧ (∀ o, o ∈ orders (db w) → valid_order o).
Proof.
  induction 1 as [up|w env session r _ (Hp & Ha & Ho)]; simpl.
  - split; [|split]; intros ? Hin; by apply not_elem_of_nil in Hin.
  - by eapply commit_valid; [apply handle_commit|..].
Qed.

Lemma rows_are_valid_witness :
  (∀ p, p ∈ products (db Demo.w7) → valid_product p)
  ∧ (∀ a, a ∈ shipping_addresses (db Demo.w7) → valid_address a)
  ∧ (∀ o, o ∈ orders (db Demo.w7) → valid_order o).
Proof. apply (rows_are_valid Demo.w7 Demo_w7_reachable). Defined.

(** ** Users, addresses and orders are only appended *)

Lemma commit_appends w w' :
  commit w w' →
  users (db w) `prefix_of` users (db w')
  ∧ shipping_addresses (db w) `prefix_of` shipping_addresses (db w')
  ∧ orders (db w) `prefix_of` orders (db w').
Proof.
  destruct 1; simpl; repeat split; try done;
    by apply prefix_app_r.
Qed.

(** X6. Whatever requests the application serves, the users, the addresses
    and the orders it had stay as they are, at the head of their tables:
    rows are appended to these tables and never changed or deleted.  So an
    order keeps the total price it was made with. *)
Theorem tables_only_grow w w' :
  serves w w' →
  users (db w) `prefix_of` users (db w')
  ∧ shipping_addresses (db w) `prefix_of` shipping_addresses (db w')
  ∧ orders (db w) `prefix_of` orders (db w')
  ∧ (∀ i o, orders (db w) !! i = Some o → orders (db w') !! i = Some o).
Proof.
  intros Hs.
  assert (H3 : users (db w) `prefix_of` users (db w')
    ∧ shipping_addresses (db w) `prefix_of` shipping_addresses (db w')
    ∧ orders (db w) `prefix_of` orders (db w')).
  { induction Hs as [|w' env session r _ (Hu & Ha & Ho)]; [done|].
    destruct (commit_appends _ _ (handle_commit env session r w'))
      as (Hu' & Ha' & Ho').
    repeat split; etrans; eauto. }
  destruct H3 as (Hu & Ha & Ho). repeat split; try done.
  intros i o Hi. destruct Ho as [k ->]. by apply lookup_app_l_Some.
Qed.

Lemma tables_only_grow_witness :
  users (db Demo.w4) `prefix_of` users (db Demo.w7)
  ∧ shipping_addresses (db Demo.w4)
    `prefix_of` shipping_addresses (db Demo.w7)
  ∧ orders (db Demo.w4) `prefix_of` orders (db Demo.w7)
  ∧ (∀ i o, orders (db Demo.w4) !! i = Some o →
            orders (db Demo.w7) !! i = Some o).
Proof.
  apply (tables_only_grow Demo.w4 Demo.w7).
  do 3 apply serves_more. apply serves_none.
Defined.

(** ** The files a request removes *)

Lemma commit_removes w w' f :
  commit w w' → f ∈ uploads w → f ∉ uploads w' →
  f ≠ default_jpg
  ∧ ∃ p, p ∈ products (db w) ∧ Product.image_filename p = f.
Proof.
  intros Hc Hf Hn.
  destruct Hc as
    [ | un em hash role Hun Hem
      | cu n de sp c pr picture up Hcu Hrole _ _ _ _ Hup
      | cu product n de sp c pr picture up Hcu Hin Hsel _ _ _ _ Hup
      | cu product Hcu Hin Hsel Hno
      | cu product Hcu Hin Hsel
      | cu rn ph l1 l2 ci st zc co Hcu Hrole _ _ _ _ _ _ _
      | cu product address t sm Hcu Hrole Hgp Hga Hown _ ];
    simpl in *; try done.
  - destruct Hup as [[_ ->]| ->]; [done|]. exfalso. apply Hn.
    apply elem_of_union. by right.
  - destruct Hup as [[_ ->]| ->]; [done|].
    assert (Hr : f ∉ remove_picture product (uploads w)).
    { intros Hr. apply Hn. apply elem_of_union. by right. }
    destruct (proj1 (remove_picture_removed product (uploads w) f))
      as (-> & Hd & _); [done|]. split; [done|]. by exists product.
  - destruct (proj1 (remove_picture_removed product (uploads w) f))
      as (-> & Hd & _); [done|]. split; [done|]. by exists product.
  - destruct (proj1 (remove_picture_removed product (uploads w) f))
      as (-> & Hd & _); [done|]. split; [done|]. by exists product.
Qed.

(** X7. A file that is in the upload folder before a request and not after
    it is the picture of a product of the table and is not the placeholder
    [default.jpg]: no request removes the placeholder or a file that is no
    product's picture. *)
Theorem requests_remove_only_pictures env session r w f :
  f ∈ uploads w →
  f ∉ uploads (handle env session r w).2 →
  f ≠ default_jpg
  ∧ ∃ p, p ∈ products (db w) ∧ Product.image_filename p = f.
Proof. apply commit_removes, handle_commit. Qed.

Lemma requests_remove_only_pictures_witness :
  "9f1c2b7a4d5e4c0f8a6b3e2d1c0f9e8d.JPG" ≠ default_jpg
  ∧ ∃ p, p ∈ products (db Demo.w4)
         ∧ Product.image_filename p = "9f1c2b7a4d5e4c0f8a6b3e2d1c0f9e8d.JPG".
Proof.
  apply (requests_remove_only_pictures (Demo.env 5) (Some 1)
           (req_delete_product 1) Demo.w4).
  - vm_compute. reflexivity.
  - vm_compute. discriminate.
Defined.

(** ** Who may write *)

Lemma handle_anonymous env session r w :
  current_user session (db w) = None →
  login_required r = true →
  handle env session r w = (unauthorized, w).
Proof.
  intros Hcu Hr. destruct r; try discriminate Hr; simpl;
    unfold create_product, update_product, delete_product, seller_products,
      create_order, shipping_address, confirm_order,
      select_shipping_address, my_orders;
    by rewrite Hcu.
Qed.

(** X8. A request to a handler under [@login_required] whose session names
    no user of the table is answered by the redirect to the login page and
    leaves the world as it is. *)
Theorem anonymous_is_sent_to_login env session r w :
  current_user session (db w) = None →
  login_required r = true →
  handle env session r w = (unauthorized, w).
Proof. apply handle_anonymous. Qed.

Lemma anonymous_is_sent_to_login_witness :
  handle (Demo.env 8) None (req_delete_product 1) Demo.w5
  = (unauthorized, Demo.w5)
  ∧ handle (Demo.env 8) (Some 17)
      (req_confirm_order 1 1 POST Demo.by_courier) Demo.w5
    = (unauthorized, Demo.w5).
Proof.
  split.
  - apply (anonymous_is_sent_to_login (Demo.env 8) None
             (req_delete_product 1) Demo.w5); reflexivity.
  - apply (anonymous_is_sent_to_login (Demo.env 8) (Some 17)
             (req_confirm_order 1 1 POST Demo.by_courier) Demo.w5);
      reflexivity.
Defined.

(** X9. A request that is not a POST leaves the world as it is: the five
    handlers that serve GET and POST write on POST only. *)
Theorem get_writes_nothing env session product_id shipping_address_id meth
    pform rform sform oform w :
  meth ≠ POST →
  (create_product env session meth pform w).2 = w
  ∧ (register env session meth rform w).2 = w
  ∧ (update_product env session product_id meth pform w).2 = w
  ∧ (shipping_address session product_id meth sform w).2 = w
  ∧ (confirm_order env session product_id shipping_address_id meth
       oform w).2 = w.
Proof.
  intros Hm.
  assert (Hs : ∀ b, validate_on_submit meth b = false)
    by (intros b; destruct meth; done).
  unfold create_product, register, update_product, shipping_address,
    confirm_order.
  rewrite !Hs. repeat split.
  - repeat case_match; done.
  - destruct meth; [| |done]; repeat case_match; done.
  - repeat case_match; done.
  - repeat case_match; done.
  - repeat case_match; done.
Qed.

Lemma get_writes_nothing_witness :
  (create_product (Demo.env 8) (Some 2) GET (Demo.lamp 100 None) Demo.w5).2
  = Demo.w5
  ∧ (register (Demo.env 8) (Some 2) GET Demo.cy Demo.w5).2 = Demo.w5
  ∧ (update_product (Demo.env 8) (Some 2) 1 GET (Demo.lamp 100 None)
       Demo.w5).2 = Demo.w5
  ∧ (shipping_address (Some 2) 1 GET Demo.home_address Demo.w5).2 = Demo.w5
  ∧ (confirm_order (Demo.env 8) (Some 2) 1 1 GET Demo.by_courier Demo.w5).2
    = Demo.w5.
Proof.
  apply (get_writes_nothing (Demo.env 8)). discriminate.
Defined.

(** X10. A submission whose CSRF token is not valid leaves the world as it
    is, in each of the four handlers that validate a form. *)
Theorem csrf_guards_forms env session product_id shipping_address_id meth
    pform sform oform w :
  pf_csrf pform = false → sf_csrf sform = false → of_csrf oform = false →
  (create_product env session meth pform w).2 = w
  ∧ (update_product env session product_id meth pform w).2 = w
  ∧ (shipping_address session product_id meth sform w).2 = w
  ∧ (confirm_order env session product_id shipping_address_id meth
       oform w).2 = w.
Proof.
  intros Hp Hs Ho.
  unfold create_product, update_product, shipping_address, confirm_order,
    validate_on_submit, ProductForm_validate, ShippingAddressForm_validate,
    OrderForm_validate.
  rewrite Hp, Hs, Ho. simpl. rewrite !andb_false_r.
  repeat split; repeat case_match; done.
Qed.

Lemma csrf_guards_forms_witness :
  let pform := mkProductForm false (Some "Lamp") (Some "A desk lamp") None
                 (Some "全新") (Some (Finite 100)) None in
  let sform := mkShippingAddressForm false (Some "Bea") (Some "0912345678")
                 (Some "1 Main Road") None (Some "Taipei") (Some "Taipei")
                 (Some "100") (Some "Taiwan") in
  let oform := mkOrderForm false (Some "宅配") in
  (create_product (Demo.env 8) (Some 2) POST pform Demo.w5).2 = Demo.w5
  ∧ (update_product (Demo.env 8) (Some 2) 1 POST pform Demo.w5).2 = Demo.w5
  ∧ (shipping_address (Some 2) 1 POST sform Demo.w5).2 = Demo.w5
  ∧ (confirm_order (Demo.env 8) (Some 2) 1 1 POST oform Demo.w5).2
    = Demo.w5.
Proof.
  apply (csrf_guards_forms (Demo.env 8) (Some 2) 1 1 POST); reflexivity.
Defined.

(** X11. Six handlers never write: the product list, the product page, the
    seller's list, the first step of a purchase, the choice of a stored
    address and the buyer's list of orders leave the world as it is,
    whoever asks and whatever they ask for. *)
Theorem readers_write_nothing session product_id shipping_address_id w :
  (home w).2 = w
  ∧ (product_detail product_id w).2 = w
  ∧ (seller_products session w).2 = w
  ∧ (create_order session product_id w).2 = w
  ∧ (select_shipping_address session product_id shipping_address_id w).2 = w
  ∧ (my_orders session w).2 = w.
Proof.
  unfold home, product_detail, seller_products, create_order,
    select_shipping_address, my_orders.
  repeat split; repeat case_match; done.
Qed.

(** ** Who may change a product *)

Lemma not_seller_is_not d session p cu :
  current_user session d = Some cu →
  Product.seller_id p ≠ User.id cu →
  seller_is_not d p cu = true.
Proof.
  intros Hcu Hne. unfold seller_is_not, seller.
  destruct (get_user d (Product.seller_id p)) as [s|] eqn:Hg; [|done].
  apply get_Some in Hg as [Hid _]. apply negb_true_iff, Nat.eqb_neq.
  congruence.
Qed.

(** X12. A request to update or to delete a product, by a user who is not
    its seller, is answered by the flash that the user has no right to and
    leaves the world as it is, whatever the form holds. *)
Theorem only_the_seller_changes_a_product env session product_id meth form w
    cu product :
  current_user session (db w) = Some cu →
  get_product (db w) product_id = Some product →
  Product.seller_id product ≠ User.id cu →
  update_product env session product_id meth form w = (no_edit, w)
  ∧ delete_product session product_id w = (no_delete, w).
Proof.
  intros Hcu Hp Hne. unfold update_product, delete_product.
  by rewrite Hcu, Hp, (not_seller_is_not _ _ _ _ Hcu Hne).
Qed.

Lemma only_the_seller_changes_a_product_witness :
  update_product (Demo.env 8) (Some 2) 1 POST (Demo.lamp 1 None) Demo.w5
  = (no_edit, Demo.w5)
  ∧ delete_product (Some 2) 1 Demo.w5 = (no_delete, Demo.w5).
Proof.
  apply (only_the_seller_changes_a_product (Demo.env 8) (Some 2) 1 POST
           (Demo.lamp 1 None) Demo.w5 Demo.bea_row Demo.lamp_row);
    try reflexivity.
  simpl. lia.
Defined.

(** X13. In a reachable world no request of a user whose role is not
    seller changes the product table or the upload folder. *)
Theorem only_sellers_change_products env session r w cu :
  reachable w →
  current_user session (db w) = Some cu →
  User.role cu ≠ "seller" →
  products (db (handle env session r w).2) = products (db w)
  ∧ uploads (handle env session r w).2 = uploads w.
Proof.
  intros Hw Hcu Hrole.
  assert (Hown : ∀ p, p ∈ products (db w) →
            seller_is_not (db w) p cu = true).
  { intros p Hp. eapply not_seller_is_not; [done|].
    destruct (inv_sellers _ (reachable_Inv _ Hw) p Hp) as [s [Hg Hs]].
    intros He. rewrite He, (current_user_get _ _ _ Hcu) in Hg.
    congruence. }
  assert (Hr : negb (String.eqb (User.role cu) "seller") = true).
  { apply negb_true_iff, String.eqb_neq. done. }
  destruct r; simpl;
    unfold home, create_product, product_detail, register, update_product,
      delete_product, seller_products, create_order, shipping_address,
      confirm_order, select_shipping_address, my_orders;
    rewrite ?Hcu, ?Hr; try done;
    repeat case_match; simpl; try done;
    match goal with
    | Hp : get_product _ _ = Some ?p, Hs : seller_is_not _ ?p _ = false
      |- _ =>
      apply get_Some in Hp as [_ Hp]; rewrite (Hown _ Hp) in Hs;
      discriminate
    end.
Qed.

Lemma only_sellers_change_products_witness :
  products (db (handle (Demo.env 8) (Some 2) (req_delete_product 1)
                  Demo.w4).2) = products (db Demo.w4)
  ∧ uploads (handle (Demo.env 8) (Some 2) (req_delete_product 1)
               Demo.w4).2 = uploads Demo.w4.
Proof.
  apply (only_sellers_change_products (Demo.env 8) (Some 2)
           (req_delete_product 1) Demo.w4 Demo.bea_row).
  - repeat apply reachable_step. apply reachable_start.
  - reflexivity.
  - discriminate.
Defined.

(** X14. In any world, no request of a user whose role is not buyer
    changes the table of addresses or the table of orders. *)
Theorem only_buyers_buy env session r w cu :
  current_user session (db w) = Some cu →
  User.role cu ≠ "buyer" →
  shipping_addresses (db (handle env session r w).2)
  = shipping_addresses (db w)
  ∧ orders (db (handle env session r w).2) = orders (db w).
Proof.
  intros Hcu Hrole.
  assert (Hbuy : ∀ p, may_not_buy (db w) cu p = Some true).
  { intros p. unfold may_not_buy.
    apply String.eqb_neq in Hrole. by rewrite Hrole. }
  destruct r; simpl;
    unfold home, create_product, product_detail, register, update_product,
      delete_product, seller_products, create_order, shipping_address,
      confirm_order, select_shipping_address, my_orders;
    rewrite ?Hcu; try done;
    repeat case_match; simpl; try done;
    match goal with
    | Hm : may_not_buy _ _ ?p = _ |- _ =>
      rewrite (Hbuy p) in Hm; discriminate
    end.
Qed.

Lemma only_buyers_buy_witness :
  shipping_addresses
    (db (handle (Demo.env 8) (Some 1)
           (req_shipping_address 1 POST Demo.home_address) Demo.w5).2)
  = shipping_addresses (db Demo.w5)
  ∧ orders
      (db (handle (Demo.env 8) (Some 1)
             (req_shipping_address 1 POST Demo.home_address) Demo.w5).2)
    = orders (db Demo.w5).
Proof.
  apply (only_buyers_buy (Demo.env 8) (Some 1)
           (req_shipping_address 1 POST Demo.home_address) Demo.w5
           Demo.sam_row).
  - reflexivity.
  - discriminate.
Defined.

(** ** Registration *)

Lemma first_by_email_taken d em u :
  u ∈ users d → User.email u = em → is_Some (first_by_email d (Some em)).
Proof.
  intros Hin He. simpl.
  destruct (find (fun u => String.eqb (User.email u) em) (users d))
    as [x|] eqn:Hf; [by eexists|].
  apply list_elem_of_In in Hin.
  eapply find_none in Hf; [|exact Hin]. simpl in Hf.
  apply String.eqb_neq in Hf. done.
Qed.

(** X15. A registration with an email that some user has leaves the world
    as it is and is not answered as an account made; sent by POST without
    a session and with a user name that is free, it is answered by the
    flash that the email is registered. *)
Theorem register_taken_email env session meth form w em u :
  rf_email form = Some em →
  u ∈ users (db w) →
  User.email u = em →
  (register env session meth form w).2 = w
  ∧ (register env session meth form w).1 ≠ account_created
  ∧ (current_user session (db w) = None → meth = POST →
     first_by_username (db w) (rf_username form) = None →
     (register env session meth form w).1 = email_exists).
Proof.
  intros Hem Hin He.
  destruct (first_by_email_taken _ _ _ Hin He) as [x Hx].
  unfold register. rewrite Hem, Hx.
  destruct (current_user session (db w)); [done|].
  destruct meth; try done.
  destruct (first_by_username (db w) (rf_username form)); done.
Qed.

Lemma register_taken_email_witness :
  let form := mkRegisterForm (Some "dee") (Some "bea@example.org")
                (Some "x") None in
  (register (Demo.env 8) None POST form Demo.w5).2 = Demo.w5
  ∧ (register (Demo.env 8) None POST form Demo.w5).1 = email_exists.
Proof.
  simpl.
  destruct (register_taken_email (Demo.env 8) None POST
              (mkRegisterForm (Some "dee") (Some "bea@example.org")
                 (Some "x") None) Demo.w5 "bea@example.org" Demo.bea_row)
    as (Hw & _ & Hr).
  - reflexivity.
  - rewrite Demo_db. simpl. apply list_elem_of_further, list_elem_of_here.
  - reflexivity.
  - split; [exact Hw|]. apply Hr; reflexivity.
Defined.

Lemma find_app_None {A} (f : A → bool) (l l' : list A) :
  find f l = None → find f (l ++ l') = find f l'.
Proof.
  induction l as [|x l IH]; simpl; [done|]. destruct (f x); [done|exact IH].
Qed.

Lemma register_account_created env session meth form w :
  (register env session meth form w).1 = account_created →
  let w' := (register env session meth form w).2 in
  ∃ un em,
    let u := User.mk (next_id User.id (users (db w))) un em (salted_hash env)
               (default "buyer" (rf_role form)) in
    rf_username form = Some un
    ∧ rf_email form = Some em
    ∧ w' = mkWorld (with_users (db w) (users (db w) ++ [u])) (uploads w)
    ∧ current_user (Some (User.id u)) (db w') = Some u
    ∧ first_by_username (db w') (Some un) = Some u
    ∧ (∀ i u0, get_user (db w) i = Some u0 → get_user (db w') i = Some u0).
Proof.
  unfold register.
  destruct (current_user session (db w)); [done|].
  destruct meth; try done.
  destruct (first_by_username (db w) (rf_username form)) eqn:Hu; [done|].
  destruct (first_by_email (db w) (rf_email form)) eqn:He; [done|].
  destruct (rf_username form) as [un|]; [|done].
  destruct (rf_email form) as [em|]; [|done].
  destruct (rf_password form) as [pw|]; [|done].
  intros _. exists un, em. simpl. repeat split.
  - unfold get_user. simpl. rewrite get_app, next_id_fresh. simpl.
    by rewrite Nat.eqb_refl.
  - simpl in Hu. rewrite (find_app_None _ _ _ Hu). simpl.
    by rewrite String.eqb_refl.
  - intros i u0 Hg. unfold get_user in *. simpl. by apply get_app_Some.
Qed.


(** X16. Whenever [register] answers that the account is made, it has
    appended one user with the name and the email of the form, the role of
    the form or buyer when the form has none, and a fresh id; a session
    with that id loads that user, a query by that name finds that user, and
    every user that was there is found as before. *)
Theorem register_then_load env session meth form w :
  (register env session meth form w).1 = account_created →
  let w' := (register env session meth form w).2 in
  ∃ un em,
    let u := User.mk (next_id User.id (users (db w))) un em (salted_hash env)
               (default "buyer" (rf_role form)) in
    rf_username form = Some un
    ∧ rf_email form = Some em
    ∧ w' = mkWorld (with_users (db w) (users (db w) ++ [u])) (uploads w)
    ∧ current_user (Some (User.id u)) (db w') = Some u
    ∧ first_by_username (db w') (Some un) = Some u
    ∧ (∀ i u0, get_user (db w) i = Some u0 → get_user (db w') i = Some u0).
Proof. apply register_account_created. Qed.

Lemma register_then_load_witness :
  let w' := (register (Demo.env 6) None POST Demo.cy Demo.w5).2 in
  ∃ un em,
    let u := User.mk (next_id User.id (users (db Demo.w5))) un em
               (salted_hash (Demo.env 6))
               (default "buyer" (rf_role Demo.cy)) in
    rf_username Demo.cy = Some un
    ∧ rf_email Demo.cy = Some em
    ∧ w' = mkWorld (with_users (db Demo.w5) (users (db Demo.w5) ++ [u]))
             (uploads Demo.w5)
    ∧ current_user (Some (User.id u)) (db w') = Some u
    ∧ first_by_username (db w') (Some un) = Some u
    ∧ (∀ i u0, get_user (db Demo.w5) i = Some u0 →
               get_user (db w') i = Some u0).
Proof.
  apply (register_then_load (Demo.env 6) None POST Demo.cy Demo.w5).
  reflexivity.
Defined.

(** ** The steps of a purchase fit together *)

Lemma shipping_address_saved session product_id meth form w pid aid :
  (shipping_address session product_id meth form w).1 = address_saved pid aid →
  ∃ cu product a,
    current_user session (db w) = Some cu
    ∧ get_product (db w) product_id = Some product
    ∧ may_not_buy (db w) cu product = Some false
    ∧ pid = product_id
    ∧ aid = next_id ShippingAddress.id (shipping_addresses (db w))
    ∧ ShippingAddress.id a = aid
    ∧ ShippingAddress.user_id a = User.id cu
    ∧ (shipping_address session product_id meth form w).2
      = mkWorld
          (with_shipping_addresses (db w) (shipping_addresses (db w) ++ [a]))
          (uploads w).
Proof.
  unfold shipping_address.
  destruct (current_user session (db w)) as [cu|] eqn:Hcu; [|done].
  destruct (get_product (db w) product_id) as [product|] eqn:Hp; [|done].
  destruct (may_not_buy (db w) cu product) as [[|]|] eqn:Hbuy; try done.
  destruct (validate_on_submit meth (ShippingAddressForm_validate form))
    eqn:Hv; [|done].
  apply validate_on_submit_true in Hv as [_ Hv].
  destruct (ShippingAddressForm_valid_all _ Hv)
    as (rn & ph & l1 & ci & st & zc & co & H1 & H2 & H3 & H4 & H5 & H6 & H7
        & _).
  rewrite H1, H2, H3, H4, H5, H6, H7. simpl.
  intros [= Hpid Haid]. apply get_Some in Hp as Hp'. destruct Hp' as [Hid _].
  eexists cu, product, _. repeat split; try done. congruence.
Qed.

(** X17. When [shipping_address] answers that the new address is saved, its
    redirect names the product of the request and the id of the row it
    appended, which belongs to the user of the session; in the world it
    leaves, [select_shipping_address] for that product and address
    redirects to the confirmation, and [confirm_order] for them, with a
    valid form, makes the order. *)
Theorem saved_address_confirms env session product_id meth form w pid aid
    meth' oform :
  (shipping_address session product_id meth form w).1 = address_saved pid aid →
  validate_on_submit meth' (OrderForm_validate oform) = true →
  let w' := (shipping_address session product_id meth form w).2 in
  pid = product_id
  ∧ get_shipping_address (db w) aid = None
  ∧ (∃ cu a,
       current_user session (db w) = Some cu
       ∧ get_shipping_address (db w') aid = Some a
       ∧ ShippingAddress.user_id a = User.id cu
       ∧ shipping_addresses (db w')
         = (shipping_addresses (db w) ++ [a])%list)
  ∧ (select_shipping_address session pid aid w').1
    = plain (redirect (ep_confirm_order pid aid))
  ∧ (confirm_order env session pid aid meth' oform w').1 = order_created.
Proof.
  intros Hok Hv. simpl.
  apply shipping_address_saved in Hok
    as (cu & product & a & Hcu & Hp & Hbuy & -> & -> & Hid & Hown & ->).
  assert (Hga : get_shipping_address
            (with_shipping_addresses (db w) (shipping_addresses (db w) ++ [a]))
            (next_id ShippingAddress.id (shipping_addresses (db w)))
          = Some a).
  { unfold get_shipping_address. simpl. rewrite get_app, next_id_fresh.
    simpl. by rewrite Hid, Nat.eqb_refl. }
  split; [done|]. split; [apply next_id_fresh|]. split.
  { exists cu, a. by repeat split. }
  pose proof (get_Some _ _ _ _ Hp) as [Hpid _].
  split.
  - unfold select_shipping_address. simpl.
    change (current_user session (db w) = Some cu) in Hcu.
    change (get_product (db w) product_id = Some product) in Hp.
    unfold current_user, get_product, get_user in *. simpl.
    rewrite Hcu, Hp. unfold get_shipping_address in Hga. simpl in Hga.
    unfold get_shipping_address. simpl. rewrite Hga.
    unfold may_not_buy, seller, get_user in *. simpl. rewrite Hbuy.
    by rewrite Hown, Nat.eqb_refl, Hpid, Hid.
  - apply validate_on_submit_true in Hv as Hv'. destruct Hv' as [_ Hv'].
    destruct (OrderForm_valid_all _ Hv') as (sm & Hsm & _).
    erewrite confirm_order_writes; [done|].
    repeat split; eauto.
Qed.

Lemma saved_address_confirms_witness :
  let w' := (shipping_address (Some 2) 1 POST Demo.home_address Demo.w3).2 in
  1 = 1
  ∧ get_shipping_address (db Demo.w3) 1 = None
  ∧ (∃ cu a,
       current_user (Some 2) (db Demo.w3) = Some cu
       ∧ get_shipping_address (db w') 1 = Some a
       ∧ ShippingAddress.user_id a = User.id cu
       ∧ shipping_addresses (db w')
         = (shipping_addresses (db Demo.w3) ++ [a])%list)
  ∧ (select_shipping_address (Some 2) 1 1 w').1
    = plain (redirect (ep_confirm_order 1 1))
  ∧ (confirm_order (Demo.env 5) (Some 2) 1 1 POST Demo.by_courier w').1
    = order_created.
Proof.
  apply (saved_address_confirms (Demo.env 5) (Some 2) 1 POST
           Demo.home_address Demo.w3 1 1 POST Demo.by_courier);
    reflexivity.
Defined.

(** X18. The steps of a purchase let the same requests through:
    [select_shipping_address] redirects to the confirmation of a product
    and an address exactly when [confirm_order], sent a valid form for them,
    makes the order; and [create_order] redirects to the address step of a
    product exactly when [shipping_address] shows its page for it. *)
Theorem purchase_steps_agree env session product_id shipping_address_id meth
    form sform w :
  validate_on_submit meth (OrderForm_validate form) = true →
  ((select_shipping_address session product_id shipping_address_id w).1
     = plain (redirect (ep_confirm_order product_id shipping_address_id))
   ↔ (confirm_order env session product_id shipping_address_id meth
        form w).1 = order_created)
  ∧ ((create_order session product_id w).1
       = plain (redirect (ep_shipping_address product_id))
     ↔ ∃ p l, (shipping_address session product_id GET sform w).1
              = plain (render_template (shipping_address_html p l))).
Proof.
  intros Hv. pose proof Hv as Hv'.
  apply validate_on_submit_true in Hv' as [_ Hv'].
  destruct (OrderForm_valid_all _ Hv') as (sm & Hsm & _).
  unfold select_shipping_address, confirm_order, create_order,
    shipping_address.
  destruct (current_user session (db w)) as [cu|].
  2:{ split; (split; [done|]); [done|]. by intros (p & l & ?). }
  destruct (get_product (db w) product_id) as [product|] eqn:Hp.
  2:{ split; (split; [done|]); [done|]. by intros (p & l & ?). }
  apply get_Some in Hp as [Hpid _]. split.
  - destruct (get_shipping_address (db w) shipping_address_id)
      as [address|] eqn:Ha; [|done].
    apply get_Some in Ha as [Haid _].
    destruct (may_not_buy (db w) cu product) as [[|]|]; try done.
    destruct (negb (ShippingAddress.user_id address =? User.id cu)); [done|].
    rewrite Hv, Hsm, Hpid, Haid. done.
  - destruct (may_not_buy (db w) cu product) as [[|]|]; simpl.
    + split; [done|]. by intros (p & l & ?).
    + rewrite Hpid. split; [eauto|done].
    + split; [done|]. by intros (p & l & ?).
Qed.

Lemma purchase_steps_agree_witness :
  ((select_shipping_address (Some 2) 1 1 Demo.w4).1
     = plain (redirect (ep_confirm_order 1 1))
   ↔ (confirm_order (Demo.env 5) (Some 2) 1 1 POST Demo.by_courier
        Demo.w4).1 = order_created)
  ∧ ((create_order (Some 2) 1 Demo.w4).1
       = plain (redirect (ep_shipping_address 1))
     ↔ ∃ p l, (shipping_address (Some 2) 1 GET Demo.home_address
                 Demo.w4).1
              = plain (render_template (shipping_address_html p l))).
Proof.
  apply (purchase_steps_agree (Demo.env 5) (Some 2) 1 1 POST Demo.by_courier
           Demo.home_address Demo.w4).
  reflexivity.
Defined.

(** ** Ids that name no row *)

(** X19. For a user who is logged in, the product page and each handler
    that takes a product id leave the world as it is when no product has
    that id, and answer 404, or 500 when the id is beyond the integers of
    the database, where the driver raises; with a product but no address of
    the given id, [confirm_order] and [select_shipping_address] do the same
    for the address id. *)
Theorem unknown_ids_are_not_found env session product_id shipping_address_id
    meth pform sform oform w cu :
  current_user session (db w) = Some cu →
  let status (i : nat) :=
    if (Z.of_nat i <=? max_int)%Z then 404 else 500 in
  (get_product (db w) product_id = None →
   product_detail product_id w = (plain (abort (status product_id)), w)
   ∧ update_product env session product_id meth pform w
     = (plain (abort (status product_id)), w)
   ∧ delete_product session product_id w
     = (plain (abort (status product_id)), w)
   ∧ create_order session product_id w
     = (plain (abort (status product_id)), w)
   ∧ shipping_address session product_id meth sform w
     = (plain (abort (status product_id)), w)
   ∧ confirm_order env session product_id shipping_address_id meth oform w
     = (plain (abort (status product_id)), w)
   ∧ select_shipping_address session product_id shipping_address_id w
     = (plain (abort (status product_id)), w))
  ∧ (get_shipping_address (db w) shipping_address_id = None →
     is_Some (get_product (db w) product_id) →
     confirm_order env session product_id shipping_address_id meth oform w
     = (plain (abort (status shipping_address_id)), w)
     ∧ select_shipping_address session product_id shipping_address_id w
       = (plain (abort (status shipping_address_id)), w))
  ∧ (∀ i, (Z.of_nat i ≤ max_int)%Z → status i = 404)
  ∧ (∀ i, (max_int < Z.of_nat i)%Z → status i = 500).
Proof.
  intros Hcu. simpl. split; [|split; [|split]].
  - intros Hp.
    unfold product_detail, update_product, delete_product, create_order,
      shipping_address, confirm_order, select_shipping_address.
    by rewrite Hcu, Hp.
  - intros Ha [p Hp].
    unfold confirm_order, select_shipping_address.
    by rewrite Hcu, Hp, Ha.
  - intros i Hi. apply Z.leb_le in Hi. by rewrite Hi.
  - intros i Hi. apply Z.leb_gt in Hi. by rewrite Hi.
Qed.

Lemma unknown_ids_are_not_found_witness :
  (product_detail 7 Demo.w5 = (plain (abort 404), Demo.w5)
   ∧ update_product (Demo.env 8) (Some 1) 7 POST (Demo.lamp 1 None) Demo.w5
     = (plain (abort 404), Demo.w5)
   ∧ delete_product (Some 1) 7 Demo.w5 = (plain (abort 404), Demo.w5)
   ∧ create_order (Some 1) 7 Demo.w5 = (plain (abort 404), Demo.w5)
   ∧ shipping_address (Some 1) 7 POST Demo.home_address Demo.w5
     = (plain (abort 404), Demo.w5)
   ∧ confirm_order (Demo.env 8) (Some 1) 7 1 POST Demo.by_courier Demo.w5
     = (plain (abort 404), Demo.w5)
   ∧ select_shipping_address (Some 1) 7 1 Demo.w5
     = (plain (abort 404), Demo.w5))
  ∧ (confirm_order (Demo.env 8) (Some 2) 1 9 POST Demo.by_courier Demo.w5
     = (plain (abort 404), Demo.w5)
     ∧ select_shipping_address (Some 2) 1 9 Demo.w5
       = (plain (abort 404), Demo.w5)).
Proof.
  split.
  - apply (proj1 (unknown_ids_are_not_found (Demo.env 8) (Some 1) 7 1 POST
                    (Demo.lamp 1 None) Demo.home_address Demo.by_courier
                    Demo.w5 Demo.sam_row eq_refl)).
    reflexivity.
  - apply (proj1 (proj2 (unknown_ids_are_not_found (Demo.env 8) (Some 2) 1 9
                    POST (Demo.lamp 1 None) Demo.home_address
                    Demo.by_courier Demo.w5 Demo.bea_row eq_refl))).
    + reflexivity.
    + by eexists.
Defined.

(** An id beyond the integers of the database: the answer is 500. *)
Example product_detail_overflow w :
  get_product (db w) (Z.to_nat (2 ^ 63)) = None →
  product_detail (Z.to_nat (2 ^ 63)) w = (plain (abort 500), w).
Proof.
  intros Hp. unfold product_detail, missing_status. rewrite Hp.
  rewrite Z2Nat.id by done. reflexivity.
Qed.

(** ** File names *)

Lemma substring_all s : substring 0 (String.length s) s = s.
Proof. induction s as [|c s IH]; simpl; [done|]. by rewrite IH. Qed.

(** A string splits at every position within it. *)
Lemma substring_split s n :
  n ≤ String.length s →
  ∃ pre, s = (pre ++ substring n (String.length s - n) s)%string
         ∧ String.length pre = n.
Proof.
  revert s. induction n as [|n IH]; intros s Hn.
  - exists "". rewrite Nat.sub_0_r, substring_all. done.
  - destruct s as [|c s]; simpl in Hn; [lia|].
    destruct (IH s) as (pre & Hs & Hl); [lia|].
    exists (String c pre). simpl. split; [|by rewrite Hl].
    rewrite Hs at 1. reflexivity.
Qed.

Lemma endswith_app s suf :
  endswith s suf = true → ∃ pre, s = (pre ++ suf)%string.
Proof.
  unfold endswith. intros [Hl He]%andb_prop.
  apply Nat.leb_le in Hl. apply String.eqb_eq in He.
  destruct (substring_split s (String.length s - String.length suf))
    as (pre & Hs & _); [lia|].
  exists pre. rewrite Hs at 1. f_equal. rewrite <- He at 3. f_equal. lia.
Qed.

Lemma lower_ascii_dot c :
  Ascii.eqb (lower_ascii c) "." = Ascii.eqb c ".".
Proof. destruct c as [[] [] [] [] [] [] [] []]; reflexivity. Qed.

Lemma after_last_dot_lower s :
  after_last_dot (lower s) = lower <$> after_last_dot s.
Proof.
  induction s as [|c s IH]; simpl; [done|].
  rewrite IH, lower_ascii_dot.
  destruct (after_last_dot s); simpl; [done|].
  by destruct (Ascii.eqb c ".").
Qed.

Lemma after_last_dot_app pre t :
  after_last_dot t = None →
  after_last_dot (pre ++ String "." t) = Some t.
Proof.
  intros Ht. induction pre as [|c pre IH]; simpl.
  - by rewrite Ht.
  - by rewrite IH.
Qed.

(** X20. A file name that [FileAllowed] of the product form accepts is one
    that [allowed_file] accepts: the form admits no name the helper of
    [app.py] would refuse.  The helper also accepts names the form refuses,
    such as a gif. *)
Theorem form_names_are_allowed f :
  has_file (Some f) = true →
  file_allowed ["jpg"; "png"; "jpeg"] (Some f) = true →
  allowed_file (filename f) = true.
Proof.
  intros Hf Ha. unfold file_allowed in Ha. rewrite Hf in Ha.
  apply existsb_exists in Ha as [x [Hx He]].
  apply endswith_app in He as [pre He].
  unfold allowed_file.
  assert (Hd : after_last_dot (lower (filename f)) = Some x).
  { rewrite He. apply after_last_dot_app.
    simpl in Hx. destruct Hx as [<-|[<-|[<-|[]]]]; reflexivity. }
  rewrite after_last_dot_lower in Hd.
  destruct (after_last_dot (filename f)) as [ext|]; [|done].
  simpl in Hd. injection Hd as ->.
  simpl in Hx. destruct Hx as [Hx|[Hx|[Hx|[]]]]; rewrite <- Hx; reflexivity.
Qed.

Lemma form_names_are_allowed_witness :
  allowed_file (filename Demo.lamp_jpg) = true.
Proof. apply (form_names_are_allowed Demo.lamp_jpg); reflexivity. Defined.

Example allowed_file_gif :
  allowed_file "spin.GIF" = true
  ∧ file_allowed ["jpg"; "png"; "jpeg"] (Some (mkFile "spin.GIF" "")) = false.
Proof. split; reflexivity. Qed.

Example allowed_file_edges :
  allowed_file "png" = false ∧ allowed_file "photo." = false
  ∧ allowed_file ".png" = true ∧ allowed_file "a.png.exe" = false.
Proof. repeat split; reflexivity. Qed.

(** *** The extension [save_picture] keeps *)










Example splitext_edges :
  splitext_ext ".jpg" = "" ∧ splitext_ext "a/b.c/name" = ""
  ∧ splitext_ext "../../etc/x.png" = ".png"
  ∧ file_allowed ["jpg"; "png"; "jpeg"] (Some (mkFile ".jpg" "")) = true.
Proof. repeat split; reflexivity. Qed.

(** ** Logging in *)

(** X22. [login] flashes success exactly when the request is a POST without
    a user in the session, a user has the name sent, and the check accepts
    the password sent against the hash of that user; the session it leaves
    then names that user.  In every other case the session is left as it
    was. *)
Theorem login_accepts_the_right_password chk session meth form next_page d :
  let r := login chk session meth form next_page d in
  (login_flashed r.1 = login_successful ↔
   current_user session d = None ∧ meth = POST
   ∧ ∃ u pw,
       first_by_username d (lf_username form) = Some u
       ∧ lf_password form = Some pw
       ∧ chk (User.password_hash u) pw = true
       ∧ r.2 = Some (User.id u))
  ∧ (login_flashed r.1 ≠ login_successful → r.2 = session).
Proof.
  simpl. unfold login.
  destruct (current_user session d) as [cu|].
  { split; [|done]. split; [done|]. by intros [? _]. }
  destruct meth;
    try (split; [|done]; split; [done|]; by intros (_ & ? & _)).
  destruct (first_by_username d (lf_username form)) as [u|].
  2:{ split; [|done]. split; [done|]. by intros (_ & _ & ? & ? & ? & _). }
  destruct (lf_password form) as [pw|].
  2:{ split; [|done]. split; [done|]. by intros (_ & _ & ? & ? & _ & ? & _). }
  destruct (chk (User.password_hash u) pw) eqn:Hc; simpl.
  - split; [|done]. split; [|done]. intros _. repeat split.
    exists u, pw. by repeat split.
  - split; [|done]. split; [done|].
    intros (_ & _ & u' & pw' & [= <-] & [= <-] & Hc' & _). congruence.
Qed.

(** X23. After a registration that is answered as an account made, a login
    with the name and the password of that registration, without a user in
    the session, succeeds when the check accepts the password against the
    hash that was stored: the session then loads the user just made. *)
Theorem register_then_login chk env session meth form w un pw session'
    next_page :
  (register env session meth form w).1 = account_created →
  rf_username form = Some un →
  rf_password form = Some pw →
  chk (salted_hash env) pw = true →
  let w' := (register env session meth form w).2 in
  current_user session' (db w') = None →
  let r := login chk session' POST (mkLoginForm (Some un) (Some pw))
             next_page (db w') in
  login_flashed r.1 = login_successful
  ∧ ∃ u, current_user r.2 (db w') = Some u
         ∧ User.username u = un
         ∧ users (db w') = (users (db w) ++ [u])%list.
Proof.
  intros Hok Hun Hpw Hchk. simpl. intros Hanon.
  destruct (register_account_created _ _ _ _ _ Hok)
    as (un' & em & Hun' & Hem & Hw' & Hload & Hfirst & _).
  rewrite Hun in Hun'. injection Hun' as <-.
  unfold login. rewrite Hanon. simpl lf_username. simpl lf_password.
  rewrite Hfirst. simpl User.password_hash. rewrite Hchk. simpl.
  split; [done|]. eexists. split; [exact Hload|]. split; [done|].
  by rewrite Hw'.
Qed.

Lemma register_then_login_witness :
  let chk := fun h pw => String.eqb h ("hash of " ++ pw) in
  let env := mkEnv 6 "0f" "hash of pa55" in
  let w' := (register env None POST Demo.cy Demo.w5).2 in
  let r := login chk None POST (mkLoginForm (Some "cy") (Some "pa55"))
             None (db w') in
  login_flashed r.1 = login_successful
  ∧ ∃ u, current_user r.2 (db w') = Some u
         ∧ User.username u = "cy"
         ∧ users (db w') = (users (db Demo.w5) ++ [u])%list.
Proof.
  apply (register_then_login
           (fun h pw => String.eqb h ("hash of " ++ pw))
           (mkEnv 6 "0f" "hash of pa55") None POST Demo.cy Demo.w5 "cy"
           "pa55" None None); reflexivity.
Defined.

(** X24. After [logout] the session names no user, whatever it was, so
    every handler under [@login_required] then answers by the redirect to
    the login page and leaves the world as it is. *)
Theorem logout_ends_the_session env session r w :
  login_required r = true →
  current_user (logout session (db w)).2 (db w) = None
  ∧ handle env (logout session (db w)).2 r w = (unauthorized, w).
Proof.
  intros Hr.
  assert (Hout : current_user (logout session (db w)).2 (db w) = None).
  { unfold logout.
    destruct (current_user session (db w)) eqn:Hcu; simpl; done. }
  split; [done|]. by apply handle_anonymous.
Qed.

Lemma logout_ends_the_session_witness :
  current_user (logout (Some 2) (db Demo.w5)).2 (db Demo.w5) = None
  ∧ handle (Demo.env 8) (logout (Some 2) (db Demo.w5)).2 req_my_orders
      Demo.w5 = (unauthorized, Demo.w5).
Proof.
  apply (logout_ends_the_session (Demo.env 8) (Some 2) req_my_orders
           Demo.w5).
  reflexivity.
Defined.

(** ** Pictures *)

(** X25. Whenever [create_product] answers that the product is listed, it
    has appended one product, with a fresh id and the current user, a
    seller, as its seller, and changed no other table.  Without a file the
    picture is the placeholder and the upload folder is as it was; with a
    file the picture has the random name and the extension of the file
    sent, and the folder has gained that name and lost nothing. *)
Theorem create_product_stores env session meth form w :
  (create_product env session meth form w).1 = product_created →
  let w' := (create_product env session meth form w).2 in
  ∃ cu p,
    current_user session (db w) = Some cu
    ∧ User.role cu = "seller"
    ∧ products (db w') = (products (db w) ++ [p])%list
    ∧ Product.seller_id p = User.id cu
    ∧ Product.id p = next_id Product.id (products (db w))
    ∧ get_product (db w') (Product.id p) = Some p
    ∧ (has_file (pf_image form) = false →
       Product.image_filename p = default_jpg ∧ uploads w' = uploads w)
    ∧ (∀ f, pf_image form = Some f → has_file (pf_image form) = true →
       Product.image_filename p
       = (uuid_hex env ++ splitext_ext (filename f))%string
       ∧ uploads w' = {[ Product.image_filename p ]} ∪ uploads w)
    ∧ users (db w') = users (db w)
    ∧ shipping_addresses (db w') = shipping_addresses (db w)
    ∧ orders (db w') = orders (db w).
Proof.
  unfold create_product.
  destruct (current_user session (db w)) as [cu|] eqn:Hcu; [|done].
  destruct (negb (String.eqb (User.role cu) "seller")) eqn:Hrole; [done|].
  destruct (validate_on_submit meth (ProductForm_validate form)) eqn:Hv;
    [|done].
  apply validate_on_submit_true in Hv as [-> Hv].
  destruct (ProductForm_valid_fields _ Hv)
    as (n & de & c & pr & Hn & Hde & Hc & Hpr & _).
  rewrite Hn, Hde, Hc, Hpr. intros _.
  assert (Hget : ∀ p,
    Product.id p = next_id Product.id (products (db w)) →
    get Product.id (Product.id p) (products (db w) ++ [p]) = Some p).
  { intros p Hid. rewrite get_app, Hid, next_id_fresh. simpl.
    by rewrite <- Hid, Nat.eqb_refl. }
  destruct (pf_image form) as [f|];
    [destruct (has_file (Some f)) eqn:Hf|]; simpl;
    eexists cu, _; (split; [done|]); (split; [by apply role_eqb_true|]);
    (split; [reflexivity|]); simpl; (split; [done|]); (split; [done|]);
    (split; [unfold get_product; simpl;
             by apply (Hget (Product.mk _ _ _ _ _ _ _ _))|]);
    (split; [by intros ?|]);
    (split; [intros f' Hf' Hyes; try done; by injection Hf' as <-|]);
    done.
Qed.

Lemma create_product_stores_witness :
  let form := Demo.lamp 100 (Some Demo.lamp_jpg) in
  let w' := (create_product (Demo.env 3) (Some 1) POST form Demo.w2).2 in
  ∃ cu p,
    current_user (Some 1) (db Demo.w2) = Some cu
    ∧ User.role cu = "seller"
    ∧ products (db w') = (products (db Demo.w2) ++ [p])%list
    ∧ Product.seller_id p = User.id cu
    ∧ Product.id p = next_id Product.id (products (db Demo.w2))
    ∧ get_product (db w') (Product.id p) = Some p
    ∧ (has_file (pf_image form) = false →
       Product.image_filename p = default_jpg
       ∧ uploads w' = uploads Demo.w2)
    ∧ (∀ f, pf_image form = Some f → has_file (pf_image form) = true →
       Product.image_filename p
       = (uuid_hex (Demo.env 3) ++ splitext_ext (filename f))%string
       ∧ uploads w' = {[ Product.image_filename p ]} ∪ uploads Demo.w2)
    ∧ users (db w') = users (db Demo.w2)
    ∧ shipping_addresses (db w') = shipping_addresses (db Demo.w2)
    ∧ orders (db w') = orders (db Demo.w2).
Proof.
  apply (create_product_stores (Demo.env 3) (Some 1) POST
           (Demo.lamp 100 (Some Demo.lamp_jpg)) Demo.w2).
  reflexivity.
Defined.

(** X26. Whenever [update_product] answers that the product is updated
    and the form carried a file, the row has the random name with the
    extension of the file as its picture, that name is in the upload
    folder, the old picture is gone from the folder unless it is the
    placeholder or has the new name, and a placeholder that was in the
    folder still is. *)
Theorem update_product_replaces_picture env session product_id meth form w f :
  (update_product env session product_id meth form w).1 = product_updated →
  pf_image form = Some f →
  has_file (pf_image form) = true →
  let w' := (update_product env session product_id meth form w).2 in
  ∃ product product',
    get_product (db w) product_id = Some product
    ∧ get_product (db w') product_id = Some product'
    ∧ Product.image_filename product'
      = (uuid_hex env ++ splitext_ext (filename f))%string
    ∧ uploads w'
      = {[ Product.image_filename product' ]}
        ∪ remove_picture product (uploads w)
    ∧ Product.image_filename product' ∈ uploads w'
    ∧ (Product.image_filename product ≠ default_jpg →
       Product.image_filename product ≠ Product.image_filename product' →
       Product.image_filename product ∉ uploads w')
    ∧ (default_jpg ∈ uploads w → default_jpg ∈ uploads w').
Proof.
  intros Hok Hf Hhas. simpl.
  apply update_product_updated in Hok
    as (cu & product & n & de & c & pr & _ & Hp & _ & _ & Hn & Hde & Hc & Hpr
        & _ & ->).
  assert (Hpic : updated_picture env form product (uploads w)
            = save_picture env f (remove_picture product (uploads w))).
  { unfold updated_picture. rewrite Hf in *. by rewrite Hhas. }
  rewrite Hpic. simpl.
  eexists product, _. split; [done|]. split.
  { unfold get_product. simpl. rewrite get_update_row.
    fold (get_product (db w) product_id). rewrite Hp. simpl.
    by rewrite Nat.eqb_refl. }
  simpl. split; [done|]. split; [done|]. split; [|split].
  - apply elem_of_union. left. by apply elem_of_singleton.
  - intros Hd Hne Hin. apply elem_of_union in Hin as [Hin|Hin].
    + apply elem_of_singleton in Hin. done.
    + rewrite (remove_picture_other _ _ Hd) in Hin.
      apply elem_of_difference in Hin as [_ Hin]. apply Hin.
      by apply elem_of_singleton.
  - intros Hd. apply elem_of_union. right.
    by apply remove_picture_spares_default.
Qed.

Lemma update_product_replaces_picture_witness :
  let form := Demo.lamp 80 (Some (mkFile "new.png" "...")) in
  let env := mkEnv 5 "5e4c0f8a6b3e2d1c0f9e8d9f1c2b7a4d" "" in
  let w' := (update_product env (Some 1) 1 POST form Demo.w4).2 in
  ∃ product product',
    get_product (db Demo.w4) 1 = Some product
    ∧ get_product (db w') 1 = Some product'
    ∧ Product.image_filename product'
      = (uuid_hex env ++ splitext_ext "new.png")%string
    ∧ uploads w'
      = {[ Product.image_filename product' ]}
        ∪ remove_picture product (uploads Demo.w4)
    ∧ Product.image_filename product' ∈ uploads w'
    ∧ (Product.image_filename product ≠ default_jpg →
       Product.image_filename product ≠ Product.image_filename product' →
       Product.image_filename product ∉ uploads w')
    ∧ (default_jpg ∈ uploads Demo.w4 → default_jpg ∈ uploads w').
Proof.
  apply (update_product_replaces_picture
           (mkEnv 5 "5e4c0f8a6b3e2d1c0f9e8d9f1c2b7a4d" "") (Some 1) 1 POST
           (Demo.lamp 80 (Some (mkFile "new.png" "..."))) Demo.w4
           (mkFile "new.png" "..."));
    reflexivity.
Defined.

(** The run: the old picture is replaced by the new one. *)
Example update_lamp_picture :
  elements (uploads
    (update_product (mkEnv 5 "5e4c0f8a6b3e2d1c0f9e8d9f1c2b7a4d" "") (Some 1)
       1 POST (Demo.lamp 80 (Some (mkFile "new.png" "..."))) Demo.w4).2)
  = ["5e4c0f8a6b3e2d1c0f9e8d9f1c2b7a4d.png"; default_jpg].
Proof. vm_compute. reflexivity. Qed.

(** ** A buyer is let through *)

(** X27. In a reachable world a user of role buyer is never refused a
    product that exists: [create_order] redirects to the address step,
    [shipping_address] with a valid form saves the address, and
    [confirm_order] with an address of that user and a valid form makes
    the order. *)
Theorem buyers_are_let_through env session product_id shipping_address_id
    sform oform w cu p a :
  reachable w →
  current_user session (db w) = Some cu →
  User.role cu = "buyer" →
  get_product (db w) product_id = Some p →
  ShippingAddressForm_validate sform = true →
  get_shipping_address (db w) shipping_address_id = Some a →
  ShippingAddress.user_id a = User.id cu →
  OrderForm_validate oform = true →
  (create_order session product_id w).1
  = plain (redirect (ep_shipping_address product_id))
  ∧ (shipping_address session product_id POST sform w).1
    = address_saved product_id
        (next_id ShippingAddress.id (shipping_addresses (db w)))
  ∧ (confirm_order env session product_id shipping_address_id POST
       oform w).1 = order_created.
Proof.
  intros Hw Hcu Hrole Hp Hsv Ha Hown Hov.
  pose proof (get_Some _ _ _ _ Hp) as [Hpid Hin].
  pose proof (Inv_buyer_may_buy _ _ _ (reachable_Inv _ Hw)
                (current_user_get _ _ _ Hcu) Hrole Hin) as Hbuy.
  split; [|split].
  - unfold create_order. by rewrite Hcu, Hp, Hbuy, Hpid.
  - unfold shipping_address. rewrite Hcu, Hp, Hbuy.
    destruct (ShippingAddressForm_valid_all _ Hsv)
      as (rn & ph & l1 & ci & st & zc & co & H1 & H2 & H3 & H4 & H5 & H6
          & H7 & _).
    unfold validate_on_submit. rewrite Hsv, H1, H2, H3, H4, H5, H6, H7.
    simpl. by rewrite Hpid.
  - destruct (OrderForm_valid_all _ Hov) as (sm & Hsm & _).
    erewrite confirm_order_writes; [done|].
    unfold can_confirm, validate_on_submit. rewrite Hov. by repeat split.
Qed.

Lemma buyers_are_let_through_witness :
  (create_order (Some 2) 1 Demo.w7).1
  = plain (redirect (ep_shipping_address 1))
  ∧ (shipping_address (Some 2) 1 POST Demo.home_address Demo.w7).1
    = address_saved 1
        (next_id ShippingAddress.id (shipping_addresses (db Demo.w7)))
  ∧ (confirm_order (Demo.env 10) (Some 2) 1 1 POST Demo.by_courier
       Demo.w7).1 = order_created.
Proof.
  apply (buyers_are_let_through (Demo.env 10) (Some 2) 1 1
           Demo.home_address Demo.by_courier Demo.w7 Demo.bea_row
           Demo.lamp_row Demo.address_row Demo_w7_reachable);
    reflexivity.
Defined.
